(** * Trade ingestion and synchronisation engine of auto-trade-system-v4

    A shallow embedding of the backend's trade pipeline
    (backend/server.ts and logger/db.ts):

    - the [trades] table of logger/db.ts with its declared primary key,
    - [logTopstepTradesToDatabase], the transactional dedup-and-insert loop,
    - [broadcastNewTrade], the socket fan-out,
    - the window sync that feeds the loop from the remote trade search,
    - the scheduled refresh of the session token and the session token
      endpoint,
    - the start-up (session, account resolution, backfill), the account,
      order and TradingView handlers, the listing and clearing of trades,
    - of the dashboard (TradeTable.tsx, Analytics.tsx, TradeMetrics.tsx):
      the "new-trade" listener, [fetchTrades] and the performance summary.

    JavaScript numbers that carry identifiers ([orderId], [accountId],
    [side]) are integers of [Z]; prices, fees, sizes and profit are the
    values of the IEEE doubles that the JSON parser produced, as rationals
    of [Q].  The one product the engine computes, [fees * 2], is exact on
    doubles as long as the result is finite, and is Infinity beyond; the
    stored fees are a [Js.number] for that reason.  Asynchronous callbacks
    are sequenced in the order the source awaits them; one call runs at a
    time. *)

From Stdlib Require Import List String ZArith QArith Bool Arith Lia.
From Stdlib Require Import Permutation Sorted Qabs Lqa.
Import ListNotations.

Local Open Scope string_scope.
Local Open Scope nat_scope.
Local Open Scope list_scope.

Set Implicit Arguments.

(** ** JavaScript numbers *)

Module Js.

(** A number that is finite, or one of the two infinities. *)
Inductive number : Type :=
| Num (q : Q)
| PosInfinity
| NegInfinity.

(** Twice a double of magnitude 2^1023 or more is not a finite double. *)
Definition overflow : Q := inject_Z (2 ^ 1023).

(** [x * 2] for a double [x]: exact while finite. *)
Definition times_two (x : Q) : number :=
  if Qle_bool overflow x then PosInfinity
  else if Qle_bool x (- overflow) then NegInfinity
  else Num (x * 2).

End Js.

(** ** Data model *)

(** A trade as the remote [Trade/search] call returns it: a record that
    carries each of its fields, with a number or null for the profit. *)
Module Raw.
Record trade : Type := mk {
  orderId : Z;
  accountId : Z;
  contractId : string;
  creationTimestamp : string;
  price : Q;
  profitAndLoss : option Q;   (* [None] is JSON null *)
  fees : Q;
  side : Z;
  size : Q
}.
End Raw.

(** A row of the [trades] table, also the payload of a ["new-trade"] event
    ([tradeToInsert] in the source). *)
Module Stored.
Record trade : Type := mk {
  broker : string;
  accountId : Z;
  contractId : string;
  creationTimestamp : string;
  price : Q;
  profitAndLoss : option Q;
  fees : Js.number;
  side : string;
  size : Q;
  orderId : Z
}.
End Stored.

(** ** The storage layer: logger/db.ts and the SQLite statements used *)

Module Sqlite.

Inductive error : Type :=
| SQLITE_ERROR
| SQLITE_CONSTRAINT
| SQLITE_BUSY
| SQLITE_IOERR
| SQLITE_FULL.

(** The ten columns of [CREATE TABLE IF NOT EXISTS trades]. *)
Inductive column : Type :=
| broker | accountId | contractId | creationTimestamp | price
| profitAndLoss | fees | side | size | orderId.

Inductive value : Type :=
| Text (s : string)
| Ident (z : Z)
| Real (q : Q)
| RealInfinity (positive : bool)
| Null.

Definition cell (r : Stored.trade) (c : column) : value :=
  match c with
  | broker => Text (Stored.broker r)
  | accountId => Ident (Stored.accountId r)
  | contractId => Text (Stored.contractId r)
  | creationTimestamp => Text (Stored.creationTimestamp r)
  | price => Real (Stored.price r)
  | profitAndLoss =>
      match Stored.profitAndLoss r with Some q => Real q | None => Null end
  | fees =>
      match Stored.fees r with
      | Js.Num q => Real q
      | Js.PosInfinity => RealInfinity true
      | Js.NegInfinity => RealInfinity false
      end
  | side => Text (Stored.side r)
  | size => Real (Stored.size r)
  | orderId => Ident (Stored.orderId r)
  end.

(** SQL equality of two cells; NULL equals nothing. *)
Definition value_eqb (a b : value) : bool :=
  match a, b with
  | Text s, Text s' => String.eqb s s'
  | Ident z, Ident z' => Z.eqb z z'
  | Real q, Real q' => Qeq_bool q q'
  | RealInfinity b, RealInfinity b' => Bool.eqb b b'
  | _, _ => false
  end.

(** [PRIMARY KEY(accountId, orderId, creationTimestamp)] *)
Definition primary_key : list column :=
  [accountId; orderId; creationTimestamp].

Definition agree_on (cols : list column) (r r' : Stored.trade) : bool :=
  forallb (fun c => value_eqb (cell r c) (cell r' c)) cols.

Definition table : Type := list Stored.trade.

(** One connection: the table as statements see it, and the table as it
    was when the open transaction began, if one is open. *)
Record database : Type := mkdb {
  rows : table;
  snapshot : option table
}.

Definition empty : database := mkdb [] None.

(** [BEGIN TRANSACTION]; refused inside a transaction. *)
Definition begin_transaction (d : database) : error + database :=
  match snapshot d with
  | None => inr (mkdb (rows d) (Some (rows d)))
  | Some _ => inl SQLITE_ERROR
  end.

Definition commit (d : database) : database := mkdb (rows d) None.

(** [ROLLBACK]; refused when no transaction is open. *)
Definition rollback (d : database) : error + database :=
  match snapshot d with
  | Some t => inr (mkdb t None)
  | None => inl SQLITE_ERROR
  end.

(** [SELECT COUNT( * ) FROM trades WHERE broker = ? AND orderId = ? AND
    creationTimestamp = ?] *)
Definition where_clause (b : string) (oid : Z) (ts : string)
    (r : Stored.trade) : bool :=
  String.eqb (Stored.broker r) b
  && Z.eqb (Stored.orderId r) oid
  && String.eqb (Stored.creationTimestamp r) ts.

Definition select_count (d : database) (b : string) (oid : Z) (ts : string)
    : nat :=
  List.length (filter (where_clause b oid ts) (rows d)).

(** [INSERT INTO trades (...) VALUES (...)]: the primary key is enforced;
    the NOT NULL columns are non-optional fields of [Stored.trade]. *)
Definition insert (d : database) (r : Stored.trade) : error + database :=
  if existsb (agree_on primary_key r) (rows d)
  then inl SQLITE_CONSTRAINT
  else inr (mkdb (rows d ++ [r]) (snapshot d)).

End Sqlite.

(** ** Effects *)

(** What a call does that the outside can observe, in order. *)
Inductive Event : Type :=
| SqlInserted (r : Stored.trade)       (* an INSERT ran without error *)
| EmitNewTrade (r : Stored.trade)      (* io.emit("new-trade", r) *)
| SqlCommitted
| SqlRolledBack.

(** The statements whose error callback the source handles. *)
Inductive Statement : Type := SELECT | INSERT | COMMIT.

(** The value a rejected promise carries. *)
Definition Failure : Type := (Statement * Sqlite.error)%type.

(** The store and what the environment will do to the coming statements:
    the n-th entry of [faults] is the storage error, if any, that the n-th
    statement with an error callback runs into (disk, locking, ...). *)
Record State : Type := mkState {
  db : Sqlite.database;
  faults : list (option Sqlite.error)
}.

Inductive Outcome (A : Type) : Type :=
| Resolved (a : A)
| Rejected (e : Failure).
Arguments Resolved {A} a.
Arguments Rejected {A} e.

Definition M (A : Type) : Type := State -> Outcome A * State * list Event.

Definition ret {A} (a : A) : M A := fun s => (Resolved a, s, []).

Definition throw {A} (e : Failure) : M A := fun s => (Rejected e, s, []).

Definition bind {A B} (m : M A) (f : A -> M B) : M B :=
  fun s =>
    match m s with
    | (Resolved a, s1, t1) =>
        let '(o, s2, t2) := f a s1 in (o, s2, t1 ++ t2)
    | (Rejected e, s1, t1) => (Rejected e, s1, t1)
    end.

Definition catch {A} (m : M A) (handler : Failure -> M A) : M A :=
  fun s =>
    match m s with
    | (Rejected e, s1, t1) =>
        let '(o, s2, t2) := handler e s1 in (o, s2, t1 ++ t2)
    | r => r
    end.

Definition tell (e : Event) : M unit := fun s => (Resolved tt, s, [e]).

Declare Scope m_scope.
Delimit Scope m_scope with M.
Notation "x <- m ;; k" := (bind m (fun x => k))
  (at level 61, m at next level, right associativity) : m_scope.
Notation "m ;; k" := (bind m (fun _ => k))
  (at level 61, right associativity) : m_scope.

Definition next_fault (fs : list (option Sqlite.error))
    : option Sqlite.error * list (option Sqlite.error) :=
  match fs with
  | [] => (None, [])
  | f :: rest => (f, rest)
  end.

(** A statement run with an error callback: it fails when the environment
    says so or when SQLite refuses it. *)
Definition statement {A} (k : Statement)
    (exec : Sqlite.database -> Sqlite.error + (A * Sqlite.database)) : M A :=
  fun s =>
    let '(f, rest) := next_fault (faults s) in
    match f with
    | Some e => (Rejected (k, e), mkState (db s) rest, [])
    | None =>
        match exec (db s) with
        | inl e => (Rejected (k, e), mkState (db s) rest, [])
        | inr (a, d) => (Resolved a, mkState d rest, [])
        end
    end.

(** A statement run without a callback ([tradesDb.run(sql)]): an error is
    not seen by the caller and the database is left as it was. *)
Definition run_unchecked (exec : Sqlite.database -> Sqlite.error + Sqlite.database)
    : M unit :=
  fun s =>
    match exec (db s) with
    | inl _ => (Resolved tt, s, [])
    | inr d => (Resolved tt, mkState d (faults s), [])
    end.

(** ** backend/server.ts *)

(** [broadcastNewTrade] *)
Definition broadcastNewTrade (trade : Stored.trade) : M unit :=
  tell (EmitNewTrade trade).

Record Counts : Type := mkCounts {
  inserted : nat;
  skipped : nat
}.

(** [const sideText = trade.side === 1 ? "buy" : "sell"] *)
Definition sideText (trade : Raw.trade) : string :=
  if Z.eqb (Raw.side trade) 1 then "buy" else "sell".

(** The object literal [tradeToInsert]. *)
Definition tradeToInsert (trade : Raw.trade) (pnl : Q) : Stored.trade :=
  Stored.mk
    "topstep"
    (Raw.accountId trade)
    (Raw.contractId trade)
    (Raw.creationTimestamp trade)
    (Raw.price trade)
    (Some pnl)
    (Js.times_two (Raw.fees trade))
    (sideText trade)
    (Raw.size trade)
    (Raw.orderId trade).

(** [tradesDb.get("SELECT COUNT( * ) ...", ["topstep", orderId, ts], cb)] *)
Definition get_count (trade : Raw.trade) : M nat :=
  statement SELECT (fun d =>
    inr (Sqlite.select_count d "topstep" (Raw.orderId trade)
           (Raw.creationTimestamp trade), d)).

(** [tradesDb.run("INSERT INTO trades ...", [...], function (err) ...)] *)
Definition run_insert (row : Stored.trade) : M unit :=
  (statement INSERT (fun d =>
     match Sqlite.insert d row with
     | inl e => inl e
     | inr d' => inr (tt, d')
     end) ;;
   tell (SqlInserted row))%M.

(** The [for (const trade of trades)] loop, with the two counters. *)
Fixpoint process_trades (trades : list Raw.trade) (c : Counts) : M Counts :=
  match trades with
  | [] => ret c
  | trade :: rest =>
      match Raw.profitAndLoss trade with
      | None => process_trades rest c            (* continue *)
      | Some pnl =>
          (count <- get_count trade ;;
           if Nat.eqb count 0 then
             run_insert (tradeToInsert trade pnl) ;;
             broadcastNewTrade (tradeToInsert trade pnl) ;;
             process_trades rest (mkCounts (S (inserted c)) (skipped c))
           else
             process_trades rest (mkCounts (inserted c) (S (skipped c))))%M
      end
  end.

(** [logTopstepTradesToDatabase]: BEGIN, the loop inside [try], ROLLBACK
    and reject in [catch], COMMIT with its callback after the loop.  The
    promise resolves with the counters or rejects with the error. *)
Definition logTopstepTradesToDatabase (trades : list Raw.trade) : M Counts :=
  (run_unchecked Sqlite.begin_transaction ;;
   c <- catch (process_trades trades (mkCounts 0 0))
          (fun error =>
             run_unchecked Sqlite.rollback ;;
             tell SqlRolledBack ;;
             throw error) ;;
   statement COMMIT (fun d => inr (tt, Sqlite.commit d)) ;;
   tell SqlCommitted ;;
   ret c)%M.

(** ** The window sync *)

(** [process.env], as far as the engine reads and writes it. *)
Record Env : Type := mkEnv {
  TOPSTEP_USERNAME : option string;
  TOPSTEP_API_KEY : option string;
  TOPSTEP_API_SESSION_TOKEN : option string;
  TOPSTEP_ACCOUNT_ID : option string
}.

(** JavaScript truthiness of an environment variable: set and not empty. *)
Definition truthy (v : option string) : bool :=
  match v with
  | Some s => negb (String.eqb s "")
  | None => false
  end.

(** An awaited [axios.post]: a response body, or a thrown error. *)
Inductive Axios (A : Type) : Type :=
| AxiosResponse (data : A)
| AxiosError (message : string).
Arguments AxiosResponse {A} data.
Arguments AxiosError {A} message.

(** Body of a [Trade/search] response; [None] when it has no [trades]
    array. *)
Record TradeSearchData : Type := mkSearch {
  trades : option (list Raw.trade)
}.

(** The remote trade search: bearer token, account, window. *)
Definition TradeSearch : Type :=
  string -> Z -> string -> string -> Axios TradeSearchData.

Inductive SyncResult : Type :=
| MissingToken                       (* status 400 *)
| SyncFailed                         (* status 500, from the [catch] *)
| Synced (logged : option Counts).   (* [res.json(response.data)] *)

(** The handler of [/api/trade/topstep/data]; the start-up sync and the
    sync after an order run the same steps.  The window is computed from
    the clock in the source and is a parameter here. *)
Definition syncWindow (env : Env) (search : TradeSearch)
    (accountId : Z) (startTimestamp endTimestamp : string)
    : State -> SyncResult * State * list Event :=
  fun s =>
    match TOPSTEP_API_SESSION_TOKEN env with
    | None => (MissingToken, s, [])
    | Some sessionToken =>
        if String.eqb sessionToken "" then (MissingToken, s, [])
        else
          match search sessionToken accountId startTimestamp endTimestamp with
          | AxiosError _ => (SyncFailed, s, [])
          | AxiosResponse data =>
              match trades data with
              | None => (Synced None, s, [])
              | Some ts =>
                  match logTopstepTradesToDatabase ts s with
                  | (Resolved c, s', t) => (Synced (Some c), s', t)
                  | (Rejected _, s', t) => (SyncFailed, s', t)
                  end
              end
          end
    end.

(** ** The scheduled token refresh *)

Inductive Console : Type :=
| console_log (line : string)
| console_error (line : string).

(** Body of an [Auth/loginKey] response.  [token] is the field as the
    assignment to [process.env] stores it: every value is written there as
    text, so the null token of a login that the remote refuses in its
    answer is the text "null". *)
Record LoginData : Type := mkLogin { token : string }.

(** The remote [Auth/loginKey] call: user name and API key. *)
Definition LoginKey : Type := string -> string -> Axios LoginData.

(** How a callback ends. *)
Inductive Completion : Type :=
| Returned
| Threw (message : string).

Definition set_token (env : Env) (t : string) : Env :=
  mkEnv (TOPSTEP_USERNAME env) (TOPSTEP_API_KEY env) (Some t)
    (TOPSTEP_ACCOUNT_ID env).

Definition env_value (v : option string) : string :=
  match v with Some s => s | None => "" end.

(** The [try] block of the callback given to [cron.schedule("0 0 * * *")]. *)
Definition refresh_try (login : LoginKey) (env : Env)
    : Completion * Env * list Console :=
  let username := TOPSTEP_USERNAME env in
  let apiKey := TOPSTEP_API_KEY env in
  if negb (truthy username) || negb (truthy apiKey) then
    (Returned, env,
     [console_error "TOPSTEP_USERNAME and TOPSTEP_API_KEY are required in .env.local for scheduled token refresh"])
  else
    match login (env_value username) (env_value apiKey) with
    | AxiosError message => (Threw message, env, [])
    | AxiosResponse data =>
        (Returned, set_token env (token data),
         [console_log "[CRON] Topstep session token refreshed successfully."])
    end.

(** The whole callback: the [catch] logs the error and returns. *)
Definition scheduledTokenRefresh (login : LoginKey) (env : Env)
    : Completion * Env * list Console :=
  match refresh_try login env with
  | (Threw message, env', out) =>
      (Returned, env',
       out ++ [console_error
                 ("[CRON] Failed to refresh Topstep session token: " ++ message)])
  | r => r
  end.

(** The refresh did not obtain a token: credentials are missing, or the
    remote call threw. *)
Definition refresh_fails (login : LoginKey) (env : Env) : Prop :=
  truthy (TOPSTEP_USERNAME env) = false
  \/ truthy (TOPSTEP_API_KEY env) = false
  \/ exists message,
       login (env_value (TOPSTEP_USERNAME env))
         (env_value (TOPSTEP_API_KEY env)) = AxiosError message.

(** ** Notions used by the statements *)

Definition outcome_of {A} (r : Outcome A * State * list Event) : Outcome A :=
  fst (fst r).
Definition state_of {A} (r : A * State * list Event) : State := snd (fst r).
Definition trace_of {A} (r : A * State * list Event) : list Event := snd r.

(** The table a call leaves behind. *)
Definition rows_after {A} (r : A * State * list Event) : Sqlite.table :=
  Sqlite.rows (db (state_of r)).

(** [persist] of the design: the batch operation on one record. *)
Definition persist (trade : Raw.trade) : M Counts :=
  logTopstepTradesToDatabase [trade].

(** A store with no storage faults ahead. *)
Definition fault_free (d : Sqlite.database) : State := mkState d [].

Definition has_pnl (trade : Raw.trade) : bool :=
  match Raw.profitAndLoss trade with Some _ => true | None => false end.

Definition count_with_pnl (ts : list Raw.trade) : nat :=
  List.length (filter has_pnl ts).

(** The composite key of the design: (broker, accountId, orderId,
    creationTimestamp). *)
Definition composite_key (r : Stored.trade) : string * Z * Z * string :=
  (Stored.broker r, Stored.accountId r, Stored.orderId r,
   Stored.creationTimestamp r).

Definition raw_key (t : Raw.trade) : string * Z * Z * string :=
  ("topstep", Raw.accountId t, Raw.orderId t, Raw.creationTimestamp t).

Definition key_eqb (k k' : string * Z * Z * string) : bool :=
  let '(b, a, o, c) := k in
  let '(b', a', o', c') := k' in
  String.eqb b b' && Z.eqb a a' && Z.eqb o o' && String.eqb c c'.

Definition rows_with_key (k : string * Z * Z * string) (t : Sqlite.table)
    : nat :=
  List.length (filter (fun r => key_eqb (composite_key r) k) t).

(** What the duplicate check looks at. *)
Definition order_key (r : Stored.trade) : Z * string :=
  (Stored.orderId r, Stored.creationTimestamp r).

(** The stores a process can get to: from the empty table, by any number
    of batch calls, each under any storage faults. *)
Inductive reachable : Sqlite.database -> Prop :=
| reachable_empty : reachable Sqlite.empty
| reachable_batch d fs ts :
    reachable d ->
    reachable (db (state_of (logTopstepTradesToDatabase ts (mkState d fs)))).

(** The events of the rows a loop inserted, in order. *)
Definition insert_events (rs : list Stored.trade) : list Event :=
  flat_map (fun r => [SqlInserted r; EmitNewTrade r]) rs.

(** The table a transaction opened now would roll back to. *)
Definition transaction_base (d : Sqlite.database) : Sqlite.table :=
  match Sqlite.snapshot d with
  | Some t => t
  | None => Sqlite.rows d
  end.

(** An open transaction only ever added rows to its snapshot. *)
Definition consistent (d : Sqlite.database) : Prop :=
  match Sqlite.snapshot d with
  | Some t => exists added, Sqlite.rows d = t ++ added
  | None => True
  end.

(** The database after an unchecked BEGIN, and after an unchecked ROLLBACK. *)
Definition begun (d : Sqlite.database) : Sqlite.database :=
  match Sqlite.begin_transaction d with inr d' => d' | inl _ => d end.

Definition rolled_back (d : Sqlite.database) : Sqlite.database :=
  match Sqlite.rollback d with inr d' => d' | inl _ => d end.

(** The record's key is on file: the SELECT of the loop counts a row. *)
Definition on_file (trade : Raw.trade) (t : Sqlite.table) : bool :=
  existsb (Sqlite.where_clause "topstep" (Raw.orderId trade)
             (Raw.creationTimestamp trade)) t.

(** ** Sample records *)

Definition trade_a : Raw.trade :=
  Raw.mk 101 7 "CON.F.US.MNQ.M25" "2025-06-02T14:30:00Z" (21500 # 1)
    (Some (25 # 2)) (5 # 2) 1 1.

Definition trade_b : Raw.trade :=
  Raw.mk 102 7 "CON.F.US.MNQ.M25" "2025-06-02T14:31:00Z" (21510 # 1)
    None (5 # 2) 0 1.

Definition trade_c : Raw.trade :=
  Raw.mk 103 7 "CON.F.US.MES.M25" "2025-06-02T14:32:00Z" (5900 # 1)
    (Some (-4 # 1)) (37 # 100) 0 2.

(** The order and timestamp of [trade_a], under another account. *)
Definition trade_a' : Raw.trade :=
  Raw.mk 101 8 "CON.F.US.MNQ.M25" "2025-06-02T14:30:00Z" (21500 # 1)
    (Some (25 # 2)) (5 # 2) 1 1.

Definition row_a : Stored.trade := tradeToInsert trade_a (25 # 2).
Definition row_c : Stored.trade := tradeToInsert trade_c (-4 # 1).

(** [row_a] as another broker would have filed it. *)
Definition row_a_kraken : Stored.trade :=
  Stored.mk "kraken" 7 "CON.F.US.MNQ.M25" "2025-06-02T14:30:00Z" (21500 # 1)
    (Some (25 # 2)) (Js.Num (10 # 2)) "buy" 1 101.

(** The row holds the record's own fields under the broker tag; [side] and
    [fees] are left to the statements about them. *)
Definition made_from (r : Stored.trade) (trade : Raw.trade) : Prop :=
  Stored.broker r = "topstep"
  /\ Stored.accountId r = Raw.accountId trade
  /\ Stored.contractId r = Raw.contractId trade
  /\ Stored.creationTimestamp r = Raw.creationTimestamp trade
  /\ Stored.price r = Raw.price trade
  /\ Stored.profitAndLoss r = Raw.profitAndLoss trade
  /\ Stored.size r = Raw.size trade
  /\ Stored.orderId r = Raw.orderId trade.

Definition no_row_event (e : Event) : bool :=
  match e with
  | SqlInserted _ | EmitNewTrade _ => false
  | _ => true
  end.

(** The event that closes a batch, by its outcome: none after a COMMIT
    that failed. *)
Definition closing_events (o : Outcome Counts) : list Event :=
  match o with
  | Resolved _ => [SqlCommitted]
  | Rejected (COMMIT, _) => []
  | Rejected _ => [SqlRolledBack]
  end.

Definition sample_env : Env :=
  mkEnv (Some "trader") (Some "api-key") (Some "session-1") (Some "7").

Definition sample_search : TradeSearch :=
  fun _ _ _ _ => AxiosResponse (mkSearch (Some [trade_a; trade_b; trade_c])).

(** Two rows that are the same but for the broker. *)
Definition differ_only_in_broker (r r' : Stored.trade) : Prop :=
  Stored.broker r <> Stored.broker r'
  /\ Stored.accountId r = Stored.accountId r'
  /\ Stored.contractId r = Stored.contractId r'
  /\ Stored.creationTimestamp r = Stored.creationTimestamp r'
  /\ Stored.price r = Stored.price r'
  /\ Stored.profitAndLoss r = Stored.profitAndLoss r'
  /\ Stored.fees r = Stored.fees r'
  /\ Stored.side r = Stored.side r'
  /\ Stored.size r = Stored.size r'
  /\ Stored.orderId r = Stored.orderId r'.

(** The rows share account, order and timestamp. *)
Definition same_account_order_time (r r' : Stored.trade) : Prop :=
  Stored.accountId r = Stored.accountId r'
  /\ Stored.orderId r = Stored.orderId r'
  /\ Stored.creationTimestamp r = Stored.creationTimestamp r'.

Definition env_without_key : Env :=
  mkEnv (Some "trader") None (Some "session-1") (Some "7").

Definition login_down : LoginKey :=
  fun _ _ => AxiosError "Request failed with status code 401".

(** What holds of every table the loop builds: all rows carry the broker
    tag of the loop, and no two rows share order and timestamp. *)
Definition table_inv (t : Sqlite.table) : Prop :=
  Forall (fun r => Stored.broker r = "topstep") t
  /\ NoDup (map order_key t).

Definition db_inv (d : Sqlite.database) : Prop :=
  table_inv (Sqlite.rows d) /\ consistent d.

Definition raw_order_key (trade : Raw.trade) : Z * string :=
  (Raw.orderId trade, Raw.creationTimestamp trade).

(** The store after [trade_a'] alone was persisted. *)
Definition store_other_account : Sqlite.database :=
  Sqlite.mkdb [tradeToInsert trade_a' (25 # 2)] None.

(** The state in which the loop of a batch starts: after the BEGIN. *)
Definition loop_start (s : State) : State :=
  mkState (begun (db s)) (faults s).

(** The loop has come to [trade] in state [s], the record is not on file,
    its SELECT runs, and its INSERT fails with [e]: by a storage fault, or
    refused by SQLite. *)
Definition insert_fails (trade : Raw.trade) (pnl : Q) (s : State)
    (e : Sqlite.error) : Prop :=
  on_file trade (Sqlite.rows (db s)) = false
  /\ exists fs,
       next_fault (faults s) = (None, fs)
       /\ (fst (next_fault fs) = Some e
           \/ (fst (next_fault fs) = None
               /\ Sqlite.insert (db s) (tradeToInsert trade pnl) = inl e)).

(** ** The administrative endpoints of backend/server.ts *)

(** [DELETE FROM trades] *)
Definition delete_all (d : Sqlite.database) : Sqlite.database :=
  Sqlite.mkdb [] (Sqlite.snapshot d).

(** [clearTradesTable] of logger/db.ts: the promise resolves, or rejects
    with the error of the DELETE. *)
Definition clearTradesTable (s : State) : (Sqlite.error + unit) * State :=
  let '(f, rest) := next_fault (faults s) in
  match f with
  | Some e => (inl e, mkState (db s) rest)
  | None => (inr tt, mkState (delete_all (db s)) rest)
  end.

(** [WHERE profitAndLoss IS NOT NULL] *)
Definition pnl_is_not_null (r : Stored.trade) : bool :=
  match Stored.profitAndLoss r with Some _ => true | None => false end.

(** [ORDER BY creationTimestamp DESC]: text compared byte by byte; rows
    with the same timestamp are kept in table order. *)
Fixpoint insert_desc (r : Stored.trade) (l : list Stored.trade)
    : list Stored.trade :=
  match l with
  | [] => [r]
  | x :: l' =>
      if String.leb (Stored.creationTimestamp x) (Stored.creationTimestamp r)
      then r :: x :: l'
      else x :: insert_desc r l'
  end.

Definition order_by_timestamp_desc (t : Sqlite.table) : list Stored.trade :=
  fold_right insert_desc [] t.

(** The answer of [app.get("/api/trades")]. *)
Inductive TradesResponse : Type :=
| TradesFailed500                          (* { error: "Failed to fetch trades" } *)
| TradesOk (rows : list Stored.trade).     (* [res.json(rows || [])] *)

Definition get_api_trades (s : State) : TradesResponse * State :=
  let '(f, rest) := next_fault (faults s) in
  match f with
  | Some _ => (TradesFailed500, mkState (db s) rest)
  | None =>
      (TradesOk (order_by_timestamp_desc
                   (filter pnl_is_not_null (Sqlite.rows (db s)))),
       mkState (db s) rest)
  end.

(** ** The dashboard: TradeTable.tsx and Analytics.tsx *)

(** The [Trade] interface of the components is the stored shape. *)

(** [prevTrades.some(trade => trade.broker === newTrade.broker &&
    trade.orderId === newTrade.orderId &&
    trade.creationTimestamp === newTrade.creationTimestamp)] *)
Definition same_trade (newTrade trade : Stored.trade) : bool :=
  String.eqb (Stored.broker trade) (Stored.broker newTrade)
  && Z.eqb (Stored.orderId trade) (Stored.orderId newTrade)
  && String.eqb (Stored.creationTimestamp trade)
       (Stored.creationTimestamp newTrade).

Definition tradeExists (newTrade : Stored.trade)
    (prevTrades : list Stored.trade) : bool :=
  existsb (same_trade newTrade) prevTrades.

(** [newTradeListener], as the update it makes to the [trades] state. *)
Definition newTradeListener (newTrade : Stored.trade)
    (prevTrades : list Stored.trade) : list Stored.trade :=
  match Stored.profitAndLoss newTrade with
  | None => prevTrades                      (* "Ignoring trade with null P&L" *)
  | Some _ =>
      if tradeExists newTrade prevTrades then prevTrades
      else newTrade :: prevTrades
  end.

(** The payloads of the ["new-trade"] events among the events of a call. *)
Definition new_trade_payloads (t : list Event) : list Stored.trade :=
  flat_map (fun e => match e with EmitNewTrade r => [r] | _ => [] end) t.

(** The [trades] state after the listener has run on each payload. *)
Definition deliver (payloads prevTrades : list Stored.trade)
    : list Stored.trade :=
  fold_left (fun l n => newTradeListener n l) payloads prevTrades.

Record ClientState : Type := mkClient {
  client_trades : list Stored.trade;
  client_error : option string
}.

(** [fetchTrades], on the answer of [/api/trades]: a response that is not
    ok throws into the [catch]. *)
Definition fetchTrades (response : TradesResponse) : ClientState :=
  match response with
  | TradesFailed500 =>
      mkClient [] (Some "Error loading trade data. Please try again.")
  | TradesOk data => mkClient (filter pnl_is_not_null data) None
  end.

(** The client key of a trade: what [same_trade] compares. *)
Definition client_key (r : Stored.trade) : string * Z * string :=
  (Stored.broker r, Stored.orderId r, Stored.creationTimestamp r).

(** The (orderId, creationTimestamp) pairs of the records with a profit,
    each once, and equality on them. *)
Definition order_key_eq_dec (k k' : Z * string) : {k = k'} + {k <> k'}.
Proof. decide equality; [apply string_dec|apply Z.eq_dec]. Defined.

Definition distinct_order_keys (ts : list Raw.trade) : list (Z * string) :=
  nodup order_key_eq_dec (map raw_order_key (filter has_pnl ts)).

(** Rows listed in descending order of the text of [creationTimestamp],
    compared byte by byte: newest first among timestamps written in one
    format. *)
Definition descending_by_timestamp_text (l : list Stored.trade) : Prop :=
  Sorted (fun a b =>
            String.leb (Stored.creationTimestamp b)
              (Stored.creationTimestamp a) = true) l.

(** Counters of two runs, added. *)
Definition add_counts (c c0 : Counts) : Counts :=
  mkCounts (inserted c + inserted c0) (skipped c + skipped c0).

Definition with_snapshot (sn : option Sqlite.table) (s : State) : State :=
  mkState (Sqlite.mkdb (Sqlite.rows (db s)) sn) (faults s).

Definition shift_outcome (c0 : Counts) (o : Outcome Counts) : Outcome Counts :=
  match o with
  | Resolved c => Resolved (add_counts c c0)
  | Rejected e => Rejected e
  end.

(** The row was built by the loop from a record of [ts]. *)
Definition built_from (ts : list Raw.trade) (r : Stored.trade) : Prop :=
  exists trade pnl,
    In trade ts /\ Raw.profitAndLoss trade = Some pnl
    /\ r = tradeToInsert trade pnl.

(** ** Start-up: session, account and backfill *)

(** The string primitives of the JavaScript runtime that the source calls;
    [parseInt] yields [None] for NaN. *)
Record Runtime : Type := mkRuntime {
  toUpperCase : string -> string;
  toLowerCase : string -> string;
  parseInt : string -> option Z
}.

(** [String.prototype.startsWith] *)
Definition startsWith (s searchString : string) : bool :=
  String.prefix searchString s.

(** An entry of the [accounts] array of [Account/search]. *)
Module TopstepAccount.
Record t : Type := mk {
  id : string;
  name : string;
  canTrade : bool
}.
End TopstepAccount.

(** Body of an [Account/search] response; [None] when [accounts] is not an
    array. *)
Record AccountData : Type := mkAccounts {
  accounts : option (list TopstepAccount.t)
}.

(** The remote account search, by bearer token. *)
Definition AccountSearch : Type := string -> Axios AccountData.

(** The remote trade search as the start-up and the order handler call it:
    the account is [parseInt(accountId)]. *)
Definition TradeSearchParsed : Type :=
  string -> option Z -> string -> string -> Axios TradeSearchData.

Definition with_account (search : TradeSearchParsed) : TradeSearch :=
  fun tok accountId => search tok (Some accountId).

(** The process-wide state of server.ts: [process.env] with the
    [ACCOUNT_NAME] entry, and the flag [initialSyncDone]. *)
Record Process : Type := mkProcess {
  env : Env;
  ACCOUNT_NAME : option string;
  initialSyncDone : bool
}.

Definition set_account_id (e : Env) (i : string) : Env :=
  mkEnv (TOPSTEP_USERNAME e) (TOPSTEP_API_KEY e)
    (TOPSTEP_API_SESSION_TOKEN e) (Some i).

(** [process.env.ACCOUNT_NAME?.toUpperCase()] as [startsWith] reads it: an
    undefined argument is the text "undefined". *)
Definition configured_prefix (rt : Runtime) (accountName : option string)
    : string :=
  match accountName with
  | Some n => toUpperCase rt n
  | None => "undefined"
  end.

(** The predicate of [accounts.find] in [initializeTopstepSessionAndAccount]. *)
Definition tradable_at_startup (rt : Runtime) (accountName : option string)
    (acc : TopstepAccount.t) : bool :=
  TopstepAccount.canTrade acc
  && startsWith (toUpperCase rt (TopstepAccount.name acc))
       (configured_prefix rt accountName).

(** The predicate of [accounts.find] in [/api/trade/topstep/account]. *)
Definition tradable_at_endpoint (rt : Runtime) (accountName : string)
    (acc : TopstepAccount.t) : bool :=
  startsWith (toUpperCase rt (TopstepAccount.name acc))
    (toUpperCase rt accountName)
  && TopstepAccount.canTrade acc.

Inductive AccountResponse : Type :=
| AccountMissingToken400
| AccountFailed500            (* the [catch], or a malformed response *)
| AccountNotFound404
| AccountFound (account : TopstepAccount.t).

(** The handler of [/api/trade/topstep/account]. *)
Definition account_endpoint (rt : Runtime) (search : AccountSearch)
    (accountName : string) (p : Process) : AccountResponse * Process :=
  let p := mkProcess (env p) (Some accountName) (initialSyncDone p) in
  let sessionToken := TOPSTEP_API_SESSION_TOKEN (env p) in
  if negb (truthy sessionToken) then (AccountMissingToken400, p)
  else
    match search (env_value sessionToken) with
    | AxiosError _ => (AccountFailed500, p)
    | AxiosResponse data =>
        match accounts data with
        | None => (AccountFailed500, p)
        | Some l =>
            match find (tradable_at_endpoint rt accountName) l with
            | Some account =>
                (AccountFound account,
                 mkProcess (set_account_id (env p) (TopstepAccount.id account))
                   (ACCOUNT_NAME p) (initialSyncDone p))
            | None => (AccountNotFound404, p)
            end
        end
    end.

Definition sync_done (p : Process) : Process :=
  mkProcess (env p) (ACCOUNT_NAME p) true.

(** [performInitialTradeSync]; the window (first day of the month, now) is
    read from the clock in the source and is a parameter here. *)
Definition performInitialTradeSync (rt : Runtime) (search : TradeSearchParsed)
    (startTimestamp endTimestamp : string) (p : Process)
    : State -> Process * State * list Event :=
  fun s =>
    let sessionToken := TOPSTEP_API_SESSION_TOKEN (env p) in
    let accountId := TOPSTEP_ACCOUNT_ID (env p) in
    if negb (truthy sessionToken) || negb (truthy accountId) then (p, s, [])
    else
      match search (env_value sessionToken)
              (parseInt rt (env_value accountId))
              startTimestamp endTimestamp with
      | AxiosError _ => (sync_done p, s, [])           (* the [catch] *)
      | AxiosResponse data =>
          match trades data with
          | None => (sync_done p, s, [])
          | Some ts =>
              let '(_, s', t) := logTopstepTradesToDatabase ts s in
              (sync_done p, s', t)
          end
      end.

(** [initializeTopstepSessionAndAccount] *)
Definition initializeTopstepSessionAndAccount (rt : Runtime)
    (login : LoginKey) (accountSearch : AccountSearch)
    (search : TradeSearchParsed) (startTimestamp endTimestamp : string)
    (p : Process) : State -> Process * State * list Event :=
  fun s =>
    let username := TOPSTEP_USERNAME (env p) in
    let apiKey := TOPSTEP_API_KEY (env p) in
    if negb (truthy username) || negb (truthy apiKey) then (p, s, [])
    else
      match login (env_value username) (env_value apiKey) with
      | AxiosError _ => (p, s, [])
      | AxiosResponse tokenData =>
          let p1 := mkProcess (set_token (env p) (token tokenData))
                      (ACCOUNT_NAME p) (initialSyncDone p) in
          match accountSearch (token tokenData) with
          | AxiosError _ => (p1, s, [])
          | AxiosResponse data =>
              let p2 :=
                match accounts data with
                | None => p1
                | Some l =>
                    match find (tradable_at_startup rt (ACCOUNT_NAME p1)) l with
                    | Some tradable =>
                        mkProcess
                          (set_account_id (env p1) (TopstepAccount.id tradable))
                          (ACCOUNT_NAME p1) (initialSyncDone p1)
                    | None => p1
                    end
                end in
              performInitialTradeSync rt search startTimestamp endTimestamp
                p2 s
          end
      end.

(** A runtime for the examples: letters a to z and A to Z mapped to each
    other, leading decimal digits read. *)
Definition ascii_upper (c : Ascii.ascii) : Ascii.ascii :=
  let n := Ascii.nat_of_ascii c in
  if (97 <=? n) && (n <=? 122) then Ascii.ascii_of_nat (n - 32) else c.

Definition ascii_lower (c : Ascii.ascii) : Ascii.ascii :=
  let n := Ascii.nat_of_ascii c in
  if (65 <=? n) && (n <=? 90) then Ascii.ascii_of_nat (n + 32) else c.

Fixpoint map_string (f : Ascii.ascii -> Ascii.ascii) (s : string) : string :=
  match s with
  | EmptyString => EmptyString
  | String c s' => String (f c) (map_string f s')
  end.

Fixpoint read_digits (s : string) (acc : Z) (seen : bool) : option Z :=
  match s with
  | EmptyString => if seen then Some acc else None
  | String c s' =>
      let n := Ascii.nat_of_ascii c in
      if (48 <=? n) && (n <=? 57)
      then read_digits s' (10 * acc + Z.of_nat (n - 48))%Z true
      else if seen then Some acc else None
  end.

Definition sample_runtime : Runtime :=
  mkRuntime (map_string ascii_upper) (map_string ascii_lower)
    (fun s => read_digits s 0%Z false).

Definition sample_accounts : list TopstepAccount.t :=
  [TopstepAccount.mk "5" "PRACTICE-001" true;
   TopstepAccount.mk "6" "50KTC-V2-77" false;
   TopstepAccount.mk "7" "50ktc-v2-88" true;
   TopstepAccount.mk "8" "50KTC-V2-99" true].

Definition sample_process : Process :=
  mkProcess sample_env (Some "50ktc") false.

(** ** Placing orders: the Topstep order endpoint and the TradingView
    webhook *)

(** Body of a request to [/api/trade/topstep/order]. *)
Module OrderRequest.
Record t : Type := mk {
  contractId : string;
  quantity : Q;
  side : Z;
  type : Z
}.
End OrderRequest.

(** The payload posted to the remote [Order/place]; [None] is null, and for
    the account id an unset environment variable. *)
Module RemoteOrder.
Record t : Type := mk {
  accountId : option string;
  contractId : string;
  type : Z;
  side : Z;
  size : Q;
  limitPrice : option Q;
  stopPrice : option Q;
  trailPrice : option Q;
  customTag : option string;
  linkedOrderId : option Z
}.
End RemoteOrder.

(** The remote order placement, by bearer token; [R] is the body of its
    answer. *)
Definition PlaceOrder (R : Type) : Type :=
  string -> RemoteOrder.t -> Axios R.

Inductive OrderResponse (R : Type) : Type :=
| OrderMissingCredentials400
| OrderFailed500
| OrderPlaced (data : R).
Arguments OrderMissingCredentials400 {R}.
Arguments OrderFailed500 {R}.
Arguments OrderPlaced {R} data.

(** What a handler did: its answer, the orders it posted to the remote, the
    store and the events afterwards. *)
Record Handled (A : Type) : Type := mkHandled {
  answer : A;
  orders_sent : list RemoteOrder.t;
  store_after : State;
  events_emitted : list Event
}.
Arguments mkHandled {A} answer orders_sent store_after events_emitted.
Arguments answer {A} h.
Arguments orders_sent {A} h.
Arguments store_after {A} h.
Arguments events_emitted {A} h.

(** The sync that follows an order: the [try] after [res.json]; its errors
    are logged and dropped.  The window (the last minute) is a parameter. *)
Definition sync_after_order (rt : Runtime) (search : TradeSearchParsed)
    (startTimestamp endTimestamp : string) (e : Env)
    : State -> State * list Event :=
  fun s =>
    let sessionToken := TOPSTEP_API_SESSION_TOKEN e in
    let accountId := TOPSTEP_ACCOUNT_ID e in
    if negb (truthy sessionToken) || negb (truthy accountId) then (s, [])
    else
      match search (env_value sessionToken)
              (parseInt rt (env_value accountId))
              startTimestamp endTimestamp with
      | AxiosError _ => (s, [])
      | AxiosResponse data =>
          match trades data with
          | None => (s, [])
          | Some ts =>
              let '(_, s', t) := logTopstepTradesToDatabase ts s in (s', t)
          end
      end.

(** The handler of [/api/trade/topstep/order]. *)
Definition order_endpoint {R} (rt : Runtime) (place : PlaceOrder R)
    (search : TradeSearchParsed) (startTimestamp endTimestamp : string)
    (e : Env) (req : OrderRequest.t) : State -> Handled (OrderResponse R) :=
  fun s =>
    let sessionToken := TOPSTEP_API_SESSION_TOKEN e in
    let username := TOPSTEP_USERNAME e in
    if negb (truthy sessionToken) || negb (truthy username)
    then mkHandled OrderMissingCredentials400 [] s []
    else
      let payload :=
        RemoteOrder.mk (TOPSTEP_ACCOUNT_ID e) (OrderRequest.contractId req)
          (OrderRequest.type req) (OrderRequest.side req)
          (OrderRequest.quantity req) None None None None None in
      match place (env_value sessionToken) payload with
      | AxiosError _ => mkHandled OrderFailed500 [payload] s []
      | AxiosResponse data =>
          let '(s', t) :=
            sync_after_order rt search startTimestamp endTimestamp e s in
          mkHandled (OrderPlaced data) [payload] s' t
      end.

(** A TradingView alert, as far as the webhook reads it; [None] is a
    missing field. *)
Module Alert.
Record t : Type := mk {
  key : string;
  broker : option string;
  contractId : option string;
  side : option string;
  quantity : option Q;
  price : option Q
}.
End Alert.

(** JavaScript truthiness of a number that may be missing. *)
Definition truthy_number (q : option Q) : bool :=
  match q with
  | Some q => negb (Qeq_bool q 0)
  | None => false
  end.

Inductive WebhookResponse (R : Type) : Type :=
| WebhookRejected400 (error : string)
| WebhookNotImplemented501
| WebhookOrdered (orderResult : R).
Arguments WebhookRejected400 {R} error.
Arguments WebhookNotImplemented501 {R}.
Arguments WebhookOrdered {R} orderResult.

(** The handler of [/api/trade/tradingview].  Its [axios.post] to the local
    order endpoint runs that handler; an answer that is not 2xx throws into
    the [catch]. *)
Definition tradingview_webhook {R} (rt : Runtime) (place : PlaceOrder R)
    (search : TradeSearchParsed) (startTimestamp endTimestamp : string)
    (e : Env) (alert : Alert.t) : State -> Handled (WebhookResponse R) :=
  fun s =>
    if String.eqb (Alert.key alert) "XCtCCAEw2G8Dg9" then
      if negb (truthy (Alert.broker alert)) then
        mkHandled (WebhookRejected400 "Missing broker in TradingView alert")
          [] s []
      else
        let broker := toLowerCase rt (env_value (Alert.broker alert)) in
        if String.eqb broker "topstep" then
          if negb (truthy (Alert.contractId alert))
             || negb (truthy (Alert.side alert))
             || negb (truthy_number (Alert.quantity alert))
             || negb (truthy_number (Alert.price alert))
          then
            mkHandled
              (WebhookRejected400 "Missing required fields for Topstep trade")
              [] s []
          else
            let orderPayload :=
              OrderRequest.mk (env_value (Alert.contractId alert))
                (match Alert.quantity alert with Some q => q | None => 0 end)
                (if String.eqb (env_value (Alert.side alert)) "buy"
                 then 0%Z else 1%Z)
                2%Z in
            let h :=
              order_endpoint rt place search startTimestamp endTimestamp e
                orderPayload s in
            match answer h with
            | OrderPlaced data =>
                mkHandled (WebhookOrdered data) (orders_sent h)
                  (store_after h) (events_emitted h)
            | _ =>
                mkHandled
                  (WebhookRejected400 "Failed to process TradingView alert")
                  (orders_sent h) (store_after h) (events_emitted h)
            end
        else if String.eqb broker "kraken" then
          mkHandled WebhookNotImplemented501 [] s []
        else if String.eqb broker "ibkr" then
          mkHandled WebhookNotImplemented501 [] s []
        else
          mkHandled (WebhookRejected400 "Unknown broker in TradingView alert")
            [] s []
    else
      mkHandled
        (WebhookRejected400 "Invalid or missing key in TradingView alert")
        [] s [].

(** The alert passes the checks of the webhook for a Topstep order. *)
Definition valid_topstep_alert (rt : Runtime) (alert : Alert.t) : bool :=
  String.eqb (Alert.key alert) "XCtCCAEw2G8Dg9"
  && truthy (Alert.broker alert)
  && String.eqb (toLowerCase rt (env_value (Alert.broker alert))) "topstep"
  && truthy (Alert.contractId alert)
  && truthy (Alert.side alert)
  && truthy_number (Alert.quantity alert)
  && truthy_number (Alert.price alert).

Definition sample_alert : Alert.t :=
  Alert.mk "XCtCCAEw2G8Dg9" (Some "Topstep") (Some "CON.F.US.MNQ.M25")
    (Some "Buy") (Some (2 # 1)) (Some (21500 # 1)).

Definition sample_place : PlaceOrder Z := fun _ _ => AxiosResponse 9001%Z.

Definition sample_search_parsed : TradeSearchParsed :=
  fun _ _ _ _ => AxiosResponse (mkSearch (Some [trade_a; trade_b; trade_c])).

(** ** The performance summary: TradeMetrics.tsx *)

(** The fees as the dashboard's arithmetic reads them.  A trade reaches the
    dashboard as JSON, which carries an infinite number as null, and null
    counts as 0 in a subtraction. *)
Definition fees_received (trade : Stored.trade) : Q :=
  match Stored.fees trade with
  | Js.Num q => q
  | Js.PosInfinity | Js.NegInfinity => 0
  end.

(** [(trade.profitAndLoss || 0) - trade.fees] *)
Definition net_pnl (trade : Stored.trade) : Q :=
  (match Stored.profitAndLoss trade with Some q => q | None => 0 end
   - fees_received trade)%Q.

(** [array.reduce((sum, trade) => sum + f(trade), 0)] *)
Definition reduce_sum (f : Stored.trade -> Q) (l : list Stored.trade) : Q :=
  fold_left (fun sum trade => (sum + f trade)%Q) l 0%Q.

Definition is_win (trade : Stored.trade) : bool :=
  match (0 ?= net_pnl trade)%Q with Lt => true | _ => false end.

Definition is_loss (trade : Stored.trade) : bool :=
  match (net_pnl trade ?= 0)%Q with Lt => true | _ => false end.

(** A JavaScript number that may be [Infinity]. *)
Inductive Factor : Type :=
| Finite (q : Q)
| Infinite.

Record Metrics : Type := mkMetrics {
  totalPnL : Q;
  winPercentage : Q;
  profitFactor : Factor
}.

(** The trades the summary is computed from: of the selected broker, with
    a profit. *)
Definition tradesWithPnL (rt : Runtime) (trades : list Stored.trade)
    (selectedBroker : string) : list Stored.trade :=
  let filteredTrades :=
    if String.eqb selectedBroker "all" then trades
    else filter (fun trade =>
                   String.eqb (toLowerCase rt (Stored.broker trade))
                     (toLowerCase rt selectedBroker)) trades in
  filter pnl_is_not_null filteredTrades.

Definition of_length (l : list Stored.trade) : Q :=
  inject_Z (Z.of_nat (List.length l)).

(** The effect of [TradeMetrics]: the three values it sets. *)
Definition tradeMetrics (rt : Runtime) (trades : list Stored.trade)
    (selectedBroker : string) : Metrics :=
  let withPnL := tradesWithPnL rt trades selectedBroker in
  match withPnL with
  | [] => mkMetrics 0 0 (Finite 0)
  | _ =>
      let pnlTotal :=
        fold_left
          (fun sum trade =>
             (sum
              + match Stored.profitAndLoss trade with
                | Some q => q
                | None => 0
                end
              - fees_received trade)%Q) withPnL 0%Q in
      let winningTrades := filter is_win withPnL in
      let winRate := (of_length winningTrades / of_length withPnL * 100)%Q in
      let profits := reduce_sum net_pnl (filter is_win withPnL) in
      let losses :=
        reduce_sum (fun trade => Qabs (net_pnl trade))
          (filter is_loss withPnL) in
      let profitFactorValue :=
        match (0 ?= losses)%Q with
        | Lt => Finite (profits / losses)
        | _ => match (0 ?= profits)%Q with
               | Lt => Infinite
               | _ => Finite 0
               end
        end in
      mkMetrics pnlTotal winRate profitFactorValue
  end.

(** ** The session token endpoint *)

Inductive SessionResponse : Type :=
| SessionMissingCredentials400
| SessionFailed500
| SessionIssued (data : LoginData).     (* [res.json(response.data)] *)

(** The handler of [/api/trade/topstep/sessionToken]. *)
Definition session_token_endpoint (login : LoginKey) (e : Env)
    : SessionResponse * Env :=
  let username := TOPSTEP_USERNAME e in
  let apiKey := TOPSTEP_API_KEY e in
  if negb (truthy username) || negb (truthy apiKey)
  then (SessionMissingCredentials400, e)
  else
    match login (env_value username) (env_value apiKey) with
    | AxiosError _ => (SessionFailed500, e)
    | AxiosResponse data => (SessionIssued data, set_token e (token data))
    end.

Definition login_up : LoginKey := fun _ _ => AxiosResponse (mkLogin "session-2").

Definition sample_account_search : AccountSearch :=
  fun _ => AxiosResponse (mkAccounts (Some sample_accounts)).

(** A record whose fees are the double 2^1023, and its row. *)
Definition trade_huge : Raw.trade :=
  Raw.mk 104 7 "CON.F.US.MNQ.M25" "2025-06-02T14:33:00Z" (21500 # 1)
    (Some 1%Q) Js.overflow 1 1.

Definition row_huge : Stored.trade := tradeToInsert trade_huge 1%Q.

(** A login that the remote refuses in a 2xx answer: the body carries
    success false and a null token. *)
Definition login_refused : LoginKey := fun _ _ => AxiosResponse (mkLogin "null").

(** The body of the remote's answer to [Order/place]; the endpoint relays
    it unread. *)
Module OrderBody.
Record t : Type := mk {
  orderId : option Z;
  success : bool;
  errorCode : Z;
  errorMessage : option string
}.
End OrderBody.



(** Two trades half a second apart, the first on the full second. *)
Definition row_on_second : Stored.trade :=
  Stored.mk "topstep" 7 "CON.F.US.MNQ.M25" "2025-06-02T14:30:00Z" (21500 # 1)
    (Some (25 # 2)) (Js.Num (10 # 2)) "buy" 1 201.

Definition row_half_later : Stored.trade :=
  Stored.mk "topstep" 7 "CON.F.US.MNQ.M25" "2025-06-02T14:30:00.500Z"
    (21501 # 1) (Some (3 # 1)) (Js.Num (10 # 2)) "sell" 1 202.

(** * Properties *)

Unset Implicit Arguments.

(** ** The loop, one record at a time *)

Lemma process_null trade rest c :
  Raw.profitAndLoss trade = None ->
  process_trades (trade :: rest) c = process_trades rest c.
Proof. intros H. simpl. now rewrite H. Qed.

(** What the loop does with a record that has a profit: the SELECT, then
    either the INSERT and the broadcast, or the skip. *)
Lemma process_some trade pnl rest c s :
  Raw.profitAndLoss trade = Some pnl ->
  process_trades (trade :: rest) c s =
  let row := tradeToInsert trade pnl in
  let '(f, fs) := next_fault (faults s) in
  match f with
  | Some e => (Rejected (SELECT, e), mkState (db s) fs, [])
  | None =>
      if Nat.eqb (Sqlite.select_count (db s) "topstep" (Raw.orderId trade)
                    (Raw.creationTimestamp trade)) 0
      then
        let '(f', fs') := next_fault fs in
        match f' with
        | Some e => (Rejected (INSERT, e), mkState (db s) fs', [])
        | None =>
            match Sqlite.insert (db s) row with
            | inl e => (Rejected (INSERT, e), mkState (db s) fs', [])
            | inr d =>
                let '(o, s', t) :=
                  process_trades rest (mkCounts (S (inserted c)) (skipped c))
                    (mkState d fs') in
                (o, s', SqlInserted row :: EmitNewTrade row :: t)
            end
        end
      else
        process_trades rest (mkCounts (inserted c) (S (skipped c)))
          (mkState (db s) fs)
  end.
Proof.
  intros H. simpl. rewrite H.
  unfold bind at 1, get_count, statement. simpl.
  destruct (next_fault (faults s)) as [[e|] fs]; [reflexivity|].
  simpl.
  destruct (Nat.eqb _ 0).
  - unfold run_insert, bind, statement, broadcastNewTrade, tell. simpl.
    destruct (next_fault fs) as [[e|] fs']; [reflexivity|].
    destruct (Sqlite.insert (db s) (tradeToInsert trade pnl)) as [e|d];
      [reflexivity|].
    simpl.
    destruct (process_trades rest _ _) as [[o s'] t]. reflexivity.
  - destruct (process_trades rest _ _) as [[o s'] t]. reflexivity.
Qed.

(** The batch call around the loop. *)
Lemma log_unfold ts s :
  logTopstepTradesToDatabase ts s =
  match process_trades ts (mkCounts 0 0) (mkState (begun (db s)) (faults s)) with
  | (Rejected e, s1, t1) =>
      (Rejected e, mkState (rolled_back (db s1)) (faults s1),
       t1 ++ [SqlRolledBack])
  | (Resolved c, s1, t1) =>
      let '(f, fs) := next_fault (faults s1) in
      match f with
      | Some e => (Rejected (COMMIT, e), mkState (db s1) fs, t1)
      | None =>
          (Resolved c, mkState (Sqlite.commit (db s1)) fs, t1 ++ [SqlCommitted])
      end
  end.
Proof.
  unfold logTopstepTradesToDatabase, bind at 1, run_unchecked, begun.
  assert (E : (match Sqlite.begin_transaction (db s) with
               | inl _ => (Resolved tt, s, @nil Event)
               | inr d => (Resolved tt, mkState d (faults s), [])
               end) =
              (Resolved tt,
               mkState (match Sqlite.begin_transaction (db s) with
                        | inr d' => d' | inl _ => db s end) (faults s), [])).
  { destruct (Sqlite.begin_transaction (db s)); [destruct s|]; reflexivity. }
  rewrite E. clear E.
  unfold bind at 1, catch.
  destruct (process_trades ts _ _) as [[[c|e] s1] t1].
  - unfold bind, statement, tell, ret. simpl.
    destruct (next_fault (faults s1)) as [[e|] fs]; simpl.
    + now rewrite app_nil_r.
    + reflexivity.
  - unfold bind, run_unchecked, tell, throw, rolled_back. simpl.
    destruct (Sqlite.rollback (db s1)); simpl.
    + destruct s1; now rewrite ?app_nil_r.
    + now rewrite ?app_nil_r.
Qed.

Lemma insert_ok d r d' :
  Sqlite.insert d r = inr d' ->
  existsb (Sqlite.agree_on Sqlite.primary_key r) (Sqlite.rows d) = false
  /\ d' = Sqlite.mkdb (Sqlite.rows d ++ [r]) (Sqlite.snapshot d).
Proof.
  unfold Sqlite.insert.
  destruct (existsb _ _); [discriminate|].
  intros H. injection H as <-. split; reflexivity.
Qed.

(** Splits a run of the loop on a record with a profit into its cases. *)
Ltac close_run H :=
  first [ discriminate H | injection H as ? ? ?; subst ].

Ltac loop_cases H :=
  cbv zeta in H;
  let f := fresh "f" in
  let fs := fresh "fs" in
  let Hc := fresh "Hcount" in
  destruct (next_fault (faults _)) as [[f|] fs] in H;
  [ close_run H
  | destruct (Nat.eqb (Sqlite.select_count _ _ _ _) 0) eqn:Hc in H;
    [ let f' := fresh "f" in
      let fs' := fresh "fs" in
      let Hi := fresh "Hins" in
      let o := fresh "o" in
      let s1 := fresh "s" in
      let t1 := fresh "t" in
      let Hr := fresh "Hrest" in
      destruct (next_fault fs) as [[f'|] fs'] in H;
      [ close_run H
      | destruct (Sqlite.insert _ _) as [?e|?d] eqn:Hi in H;
        [ close_run H
        | destruct (process_trades _ _ _) as [[o s1] t1] eqn:Hr in H;
          close_run H ] ]
    | ] ].

(** What one run of the loop leaves behind: the rows it appended, the
    events it produced, the counters. *)
Lemma process_spec ts : forall c s o s' t,
  process_trades ts c s = (o, s', t) ->
  exists ins,
    t = insert_events ins
    /\ Sqlite.rows (db s') = Sqlite.rows (db s) ++ ins
    /\ Sqlite.snapshot (db s') = Sqlite.snapshot (db s)
    /\ Forall (fun r => exists trade pnl,
                 In trade ts /\ Raw.profitAndLoss trade = Some pnl
                 /\ r = tradeToInsert trade pnl) ins
    /\ match o with
       | Resolved c' =>
           inserted c' = inserted c + List.length ins
           /\ inserted c' + skipped c' =
              inserted c + skipped c + count_with_pnl ts
       | Rejected (k, _) => k = SELECT \/ k = INSERT
       end.
Proof.
  induction ts as [|trade rest IH]; intros c s o s' t H.
  - injection H as <- <- <-. exists []. simpl.
    rewrite app_nil_r. repeat split; auto; unfold count_with_pnl; simpl; lia.
  - destruct (Raw.profitAndLoss trade) as [pnl|] eqn:P.
    + rewrite (process_some _ _ _ _ _ P) in H.
      loop_cases H.
      * exists []. simpl. rewrite app_nil_r. repeat split; auto.
      * exists []. simpl. rewrite app_nil_r. repeat split; auto.
      * exists []. simpl. rewrite app_nil_r. repeat split; auto.
      * apply insert_ok in Hins as [_ ->].
        apply IH in Hrest as (ins & -> & Hrows & Hsnap & Hall & Ho).
        exists (tradeToInsert trade pnl :: ins). simpl in *.
        rewrite Hrows, <- app_assoc. repeat split; auto.
        -- constructor.
           ++ exists trade, pnl. auto.
           ++ eapply Forall_impl; [|exact Hall].
              intros r (tr & q & ? & ? & ?). exists tr, q. auto.
        -- match goal with |- match ?x with _ => _ end => destruct x as [c'|[k e]] end; auto.
           unfold count_with_pnl in *. simpl. unfold has_pnl at 1.
           rewrite P. simpl. lia.
      * apply IH in H as (ins & -> & Hrows & Hsnap & Hall & Ho).
        exists ins. simpl in *. repeat split; auto.
        -- eapply Forall_impl; [|exact Hall].
           intros r (tr & q & ? & ? & ?). exists tr, q. auto.
        -- destruct o as [c'|[k e]]; auto.
           unfold count_with_pnl in *. simpl. unfold has_pnl at 1.
           rewrite P. simpl. lia.
    + rewrite (process_null _ _ _ P) in H.
      apply IH in H as (ins & -> & Hrows & Hsnap & Hall & Ho).
      exists ins. repeat split; auto.
      * eapply Forall_impl; [|exact Hall].
        intros r (tr & q & ? & ? & ?). exists tr, q. simpl. auto.
      * destruct o as [c'|[k e]]; auto.
        unfold count_with_pnl in *. simpl. unfold has_pnl at 1.
        rewrite P. simpl. lia.
Qed.

(** ** The duplicate check *)

Lemma count_zero_on_file trade d :
  Nat.eqb (Sqlite.select_count d "topstep" (Raw.orderId trade)
             (Raw.creationTimestamp trade)) 0
  = negb (on_file trade (Sqlite.rows d)).
Proof.
  unfold Sqlite.select_count, on_file.
  induction (Sqlite.rows d) as [|r t IH]; simpl; [reflexivity|].
  destruct (Sqlite.where_clause _ _ _ r); simpl; [reflexivity|exact IH].
Qed.

Lemma on_file_app trade t t' :
  on_file trade (t ++ t') = on_file trade t || on_file trade t'.
Proof. unfold on_file. apply existsb_app. Qed.

Lemma on_file_own_row trade pnl :
  on_file trade [tradeToInsert trade pnl] = true.
Proof.
  unfold on_file, Sqlite.where_clause. simpl.
  now rewrite Z.eqb_refl, String.eqb_refl.
Qed.

(** After a loop that ran to its end, every record with a profit is on
    file. *)
Lemma process_covers ts : forall c s c' s' t,
  process_trades ts c s = (Resolved c', s', t) ->
  forall trade, In trade ts -> has_pnl trade = true ->
    on_file trade (Sqlite.rows (db s')) = true.
Proof.
  induction ts as [|tr rest IH]; intros c s c' s' t H trade Hin Hp;
    [destruct Hin|].
  destruct (Raw.profitAndLoss tr) as [pnl|] eqn:P.
  - rewrite (process_some _ _ _ _ _ P) in H.
    loop_cases H.
    + destruct Hin as [->|Hin]; [|eapply IH; eauto].
      apply insert_ok in Hins as [_ ->].
      apply process_spec in Hrest as (ins & _ & Hrows & _).
      rewrite Hrows. simpl.
      rewrite <- app_assoc, !on_file_app, (on_file_own_row trade pnl).
      now rewrite orb_true_r.
    + destruct Hin as [->|Hin]; [|eapply IH; eauto].
      rewrite count_zero_on_file in Hcount.
      apply negb_false_iff in Hcount.
      apply process_spec in H as (ins & _ & Hrows & _).
      rewrite Hrows. simpl in *. now rewrite on_file_app, Hcount.
  - rewrite (process_null _ _ _ P) in H.
    destruct Hin as [->|Hin]; [|eapply IH; eauto].
    unfold has_pnl in Hp. now rewrite P in Hp.
Qed.

(** A loop over records that are all on file touches nothing. *)
Lemma process_on_file ts : forall c s o s' t,
  (forall trade, In trade ts -> has_pnl trade = true ->
     on_file trade (Sqlite.rows (db s)) = true) ->
  process_trades ts c s = (o, s', t) ->
  db s' = db s /\ t = []
  /\ forall c', o = Resolved c' ->
       c' = mkCounts (inserted c) (skipped c + count_with_pnl ts).
Proof.
  induction ts as [|tr rest IH]; intros c s o s' t Hall H.
  - injection H as <- <- <-. repeat split; auto.
    intros c' E. injection E as <-. unfold count_with_pnl. simpl.
    rewrite Nat.add_0_r. now destruct c.
  - destruct (Raw.profitAndLoss tr) as [pnl|] eqn:P.
    + rewrite (process_some _ _ _ _ _ P) in H.
      assert (Hp : has_pnl tr = true) by (unfold has_pnl; now rewrite P).
      assert (Hf := Hall tr (or_introl eq_refl) Hp).
      cbv zeta in H. rewrite count_zero_on_file, Hf in H. simpl in H.
      destruct (next_fault (faults s)) as [[f|] fs].
      * injection H as <- <- <-. repeat split; auto. discriminate.
      * apply IH in H as (Hd & Ht & Hc); [|intros; apply Hall; simpl; auto].
        simpl in *. repeat split; auto.
        intros c' E. rewrite (Hc c' E). unfold count_with_pnl. simpl.
        rewrite Hp. simpl. f_equal. lia.
    + rewrite (process_null _ _ _ P) in H.
      apply IH in H as (Hd & Ht & Hc); [|intros; apply Hall; simpl; auto].
      repeat split; auto.
      intros c' E. rewrite (Hc c' E). unfold count_with_pnl. simpl.
      unfold has_pnl at 2. now rewrite P.
Qed.

(** With no storage fault ahead, that loop runs to its end. *)
Lemma process_on_file_fault_free ts : forall c d,
  (forall trade, In trade ts -> has_pnl trade = true ->
     on_file trade (Sqlite.rows d) = true) ->
  process_trades ts c (fault_free d) =
  (Resolved (mkCounts (inserted c) (skipped c + count_with_pnl ts)),
   fault_free d, []).
Proof.
  induction ts as [|tr rest IH]; intros c d Hall.
  - unfold count_with_pnl. simpl. rewrite Nat.add_0_r. now destruct c.
  - destruct (Raw.profitAndLoss tr) as [pnl|] eqn:P.
    + rewrite (process_some _ _ _ _ _ P).
      assert (Hp : has_pnl tr = true) by (unfold has_pnl; now rewrite P).
      assert (Hf := Hall tr (or_introl eq_refl) Hp).
      cbv zeta. simpl. rewrite count_zero_on_file. simpl. rewrite Hf. simpl.
      change (mkState d []) with (fault_free d).
      rewrite IH by (intros; apply Hall; simpl; auto).
      unfold count_with_pnl. simpl. rewrite Hp. simpl.
      repeat f_equal. lia.
    + rewrite (process_null _ _ _ P).
      rewrite IH by (intros; apply Hall; simpl; auto).
      unfold count_with_pnl. simpl. unfold has_pnl at 2. now rewrite P.
Qed.

(** ** The batch call *)

Lemma begun_rows d : Sqlite.rows (begun d) = Sqlite.rows d.
Proof. unfold begun, Sqlite.begin_transaction. now destruct (Sqlite.snapshot d). Qed.

Lemma begun_base d : Sqlite.snapshot (begun d) = Some (transaction_base d).
Proof.
  unfold begun, Sqlite.begin_transaction, transaction_base.
  destruct (Sqlite.snapshot d) eqn:E; simpl; [exact E|reflexivity].
Qed.

Lemma rolled_back_to_base d t :
  Sqlite.snapshot d = Some t -> rolled_back d = Sqlite.mkdb t None.
Proof. unfold rolled_back, Sqlite.rollback. now intros ->. Qed.

(** Records without a profit do not reach the loop body. *)
Lemma process_filter ts : forall c s,
  process_trades ts c s = process_trades (filter has_pnl ts) c s.
Proof.
  induction ts as [|tr rest IH]; intros c s; [reflexivity|].
  destruct (Raw.profitAndLoss tr) as [pnl|] eqn:P.
  - assert (E : filter has_pnl (tr :: rest) = tr :: filter has_pnl rest)
      by (simpl; unfold has_pnl at 1; now rewrite P).
    rewrite E, !(process_some _ _ _ _ _ P). cbv zeta.
    destruct (next_fault (faults s)) as [[f|] fs]; [reflexivity|].
    destruct (Nat.eqb _ 0); [|apply IH].
    destruct (next_fault fs) as [[f'|] fs']; [reflexivity|].
    destruct (Sqlite.insert _ _); [reflexivity|].
    now rewrite IH.
  - assert (E : filter has_pnl (tr :: rest) = filter has_pnl rest)
      by (simpl; unfold has_pnl at 1; now rewrite P).
    rewrite E, (process_null _ _ _ P). apply IH.
Qed.

Lemma log_filter ts s :
  logTopstepTradesToDatabase ts s =
  logTopstepTradesToDatabase (filter has_pnl ts) s.
Proof. now rewrite !log_unfold, process_filter. Qed.

(** A batch that resolved: what it appended, emitted and counted. *)
Lemma log_resolved ts s c s' t :
  logTopstepTradesToDatabase ts s = (Resolved c, s', t) ->
  exists ins,
    t = insert_events ins ++ [SqlCommitted]
    /\ db s' = Sqlite.mkdb (Sqlite.rows (db s) ++ ins) None
    /\ Forall (fun r => exists trade pnl,
                 In trade ts /\ Raw.profitAndLoss trade = Some pnl
                 /\ r = tradeToInsert trade pnl) ins
    /\ inserted c = List.length ins
    /\ inserted c + skipped c = count_with_pnl ts
    /\ (forall trade, In trade ts -> has_pnl trade = true ->
          on_file trade (Sqlite.rows (db s')) = true).
Proof.
  rewrite log_unfold.
  destruct (process_trades ts _ _) as [[[c1|e] s1] t1] eqn:Hp;
    [|discriminate].
  destruct (next_fault (faults s1)) as [[e|] fs]; [discriminate|].
  intros H. injection H as <- <- <-.
  pose proof (process_covers _ _ _ _ _ _ Hp) as Hcov.
  apply process_spec in Hp as (ins & -> & Hrows & _ & Hall & Hi & Hsum).
  simpl in *. rewrite begun_rows in Hrows.
  exists ins. unfold Sqlite.commit. rewrite Hrows. simpl.
  repeat split; auto.
  intros trade Hin Hpnl. rewrite <- Hrows. now apply Hcov.
Qed.

(** A batch always leaves the table at the transaction base with the rows
    it kept appended: none when it is rejected by the loop. *)
Lemma log_rejected ts s k e s' t :
  logTopstepTradesToDatabase ts s = (Rejected (k, e), s', t) ->
  k <> COMMIT ->
  exists ins,
    t = insert_events ins ++ [SqlRolledBack]
    /\ db s' = Sqlite.mkdb (transaction_base (db s)) None
    /\ Forall (fun r => exists trade pnl,
                 In trade ts /\ Raw.profitAndLoss trade = Some pnl
                 /\ r = tradeToInsert trade pnl) ins.
Proof.
  rewrite log_unfold.
  destruct (process_trades ts _ _) as [[[c1|e1] s1] t1] eqn:Hp.
  - destruct (next_fault (faults s1)) as [[e1|] fs]; [|discriminate].
    intros H. injection H as <- <- <- <-. now intros [].
  - intros H _. injection H as -> <- <-.
    apply process_spec in Hp as (ins & -> & _ & Hsnap & Hall & _).
    simpl in *. rewrite begun_base in Hsnap.
    exists ins. rewrite (rolled_back_to_base _ _ Hsnap). auto.
Qed.

(** ** Counters *)

(** C3: the counters a batch returns add up to the number of its records
    whose profitAndLoss is not null; a record with a null profitAndLoss is
    in neither counter. *)
Theorem counters_cover_records_with_pnl ts s c s' t :
  logTopstepTradesToDatabase ts s = (Resolved c, s', t) ->
  inserted c + skipped c = count_with_pnl ts.
Proof.
  intros H. apply log_resolved in H as (ins & _ & _ & _ & _ & Hsum & _).
  exact Hsum.
Qed.

Lemma counters_cover_records_with_pnl_witness :
  logTopstepTradesToDatabase [trade_a; trade_b; trade_c; trade_a]
    (fault_free Sqlite.empty)
  = (Resolved (mkCounts 2 1),
     fault_free (Sqlite.mkdb [row_a; row_c] None),
     insert_events [row_a; row_c] ++ [SqlCommitted])
  /\ 2 + 1 = count_with_pnl [trade_a; trade_b; trade_c; trade_a].
Proof.
  split; [reflexivity|].
  apply (counters_cover_records_with_pnl
           [trade_a; trade_b; trade_c; trade_a] (fault_free Sqlite.empty)
           (mkCounts 2 1) (fault_free (Sqlite.mkdb [row_a; row_c] None))
           (insert_events [row_a; row_c] ++ [SqlCommitted])).
  reflexivity.
Defined.

(** ** Records without a profit *)

(** C4: a record whose profitAndLoss is null is a no-op.  A batch does the
    same with and without it; persisting it alone does what the empty batch
    does: the table is unchanged, no row is inserted, no event is
    broadcast, and the counters it returns are both zero. *)
Theorem null_pnl_is_noop trade :
  Raw.profitAndLoss trade = None ->
  (forall before after s,
     logTopstepTradesToDatabase (before ++ trade :: after) s
     = logTopstepTradesToDatabase (before ++ after) s)
  /\ (forall s,
       persist trade s = logTopstepTradesToDatabase [] s
       /\ rows_after (persist trade s) = Sqlite.rows (db s)
       /\ forallb no_row_event (trace_of (persist trade s)) = true
       /\ forall c, outcome_of (persist trade s) = Resolved c ->
                    c = mkCounts 0 0)
  /\ (forall d,
       persist trade (fault_free d)
       = (Resolved (mkCounts 0 0),
          fault_free (Sqlite.mkdb (Sqlite.rows d) None), [SqlCommitted])).
Proof.
  intros P.
  assert (Hf : has_pnl trade = false) by (unfold has_pnl; now rewrite P).
  assert (He : forall s, persist trade s = logTopstepTradesToDatabase [] s).
  { intros s. unfold persist. rewrite log_filter. simpl. now rewrite Hf. }
  assert (Hrun : forall s, logTopstepTradesToDatabase [] s =
            let '(f, fs) := next_fault (faults s) in
            match f with
            | Some e => (Rejected (COMMIT, e), mkState (begun (db s)) fs, [])
            | None => (Resolved (mkCounts 0 0),
                       mkState (Sqlite.commit (begun (db s))) fs,
                       [SqlCommitted])
            end).
  { intros s. rewrite log_unfold. simpl.
    now destruct (next_fault (faults s)) as [[e|] fs]. }
  split; [|split].
  - intros before after s.
    rewrite log_filter, (log_filter (before ++ after)).
    rewrite !filter_app. simpl. now rewrite Hf.
  - intros s. rewrite He, Hrun.
    destruct (next_fault (faults s)) as [[e|] fs];
      unfold rows_after, state_of, trace_of, outcome_of; simpl;
      rewrite begun_rows; repeat split; auto.
    + discriminate.
    + intros c E. now injection E as <-.
  - intros d. rewrite He, Hrun. simpl. unfold Sqlite.commit.
    now rewrite begun_rows.
Qed.

Lemma null_pnl_is_noop_witness :
  Raw.profitAndLoss trade_b = None
  /\ logTopstepTradesToDatabase ([trade_a] ++ trade_b :: [trade_c])
       (fault_free Sqlite.empty)
     = logTopstepTradesToDatabase ([trade_a] ++ [trade_c])
         (fault_free Sqlite.empty)
  /\ persist trade_b (fault_free (Sqlite.mkdb [row_a] None))
     = (Resolved (mkCounts 0 0),
        fault_free (Sqlite.mkdb [row_a] None), [SqlCommitted]).
Proof.
  split; [reflexivity|].
  destruct (null_pnl_is_noop trade_b eq_refl) as (Hbatch & _ & Hone).
  split.
  - apply Hbatch.
  - apply (Hone (Sqlite.mkdb [row_a] None)).
Defined.

(** ** Running a batch again *)

(** A batch whose records are all on file leaves the table as it is,
    whatever the storage does, and counts no insert. *)
Lemma log_on_file ts d fs :
  (forall trade, In trade ts -> has_pnl trade = true ->
     on_file trade (Sqlite.rows d) = true) ->
  Sqlite.snapshot d = None ->
  rows_after (logTopstepTradesToDatabase ts (mkState d fs)) = Sqlite.rows d
  /\ forall c,
       outcome_of (logTopstepTradesToDatabase ts (mkState d fs)) = Resolved c ->
       c = mkCounts 0 (count_with_pnl ts).
Proof.
  intros Hall Hsnap. rewrite log_unfold. simpl.
  destruct (process_trades ts _ _) as [[o s1] t1] eqn:Hp.
  apply process_on_file in Hp as (Hd & -> & Hc);
    [|simpl; now rewrite begun_rows].
  simpl in Hd.
  assert (Hb : Sqlite.snapshot (db s1) = Some (Sqlite.rows d)).
  { rewrite Hd, begun_base. unfold transaction_base. now rewrite Hsnap. }
  destruct o as [c1|e].
  - destruct (next_fault (faults s1)) as [[e|] fs'];
      unfold rows_after, state_of, outcome_of; simpl;
      rewrite Hd, begun_rows; (split; [reflexivity|]); intros c E;
      [ discriminate E | injection E as <-; now rewrite (Hc c1 eq_refl) ].
  - unfold rows_after, state_of, outcome_of. simpl.
    rewrite (rolled_back_to_base _ _ Hb). split; [reflexivity|discriminate].
Qed.

Lemma log_on_file_fault_free ts d :
  (forall trade, In trade ts -> has_pnl trade = true ->
     on_file trade (Sqlite.rows d) = true) ->
  logTopstepTradesToDatabase ts (fault_free d)
  = (Resolved (mkCounts 0 (count_with_pnl ts)),
     fault_free (Sqlite.mkdb (Sqlite.rows d) None), [SqlCommitted]).
Proof.
  intros Hall. rewrite log_unfold. simpl.
  change (mkState (begun d) []) with (fault_free (begun d)).
  rewrite process_on_file_fault_free by now rewrite begun_rows.
  simpl. unfold Sqlite.commit. now rewrite begun_rows.
Qed.

(** C2: a window sync that went through, run again over the same window
    with the same remote answer, inserts nothing: whatever the storage does
    the second time the table keeps its rows, a second run that returns
    counters returns [inserted = 0], and with no storage fault it does
    return them, every record with a profit counted as skipped. *)
Theorem sync_twice_inserts_nothing env search acct st en s logged s1 t1 :
  syncWindow env search acct st en s = (Synced logged, s1, t1) ->
  (forall fs,
     let again := syncWindow env search acct st en (mkState (db s1) fs) in
     rows_after again = Sqlite.rows (db s1)
     /\ List.length (rows_after again) = List.length (Sqlite.rows (db s1))
     /\ forall c, fst (fst again) = Synced (Some c) -> inserted c = 0)
  /\ syncWindow env search acct st en (fault_free (db s1))
     = (Synced (option_map
                  (fun c => mkCounts 0 (inserted c + skipped c)) logged),
        fault_free (db s1),
        match logged with Some _ => [SqlCommitted] | None => [] end).
Proof.
  unfold syncWindow.
  destruct (TOPSTEP_API_SESSION_TOKEN env) as [tok|]; [|discriminate].
  destruct (String.eqb tok ""); [discriminate|].
  destruct (search tok acct st en) as [data|msg]; [|discriminate].
  destruct (trades data) as [ts|].
  - destruct (logTopstepTradesToDatabase ts s) as [[[c|e] s'] t] eqn:Hlog;
      [|discriminate].
    intros H. injection H as <- <- <-.
    pose proof (counters_sum_helper := log_resolved _ _ _ _ _ Hlog).
    destruct counters_sum_helper as (ins & _ & Hdb & _ & _ & Hsum & Hcov).
    assert (Hsnap : Sqlite.snapshot (db s') = None) by now rewrite Hdb.
    split.
    + intros fs. cbv zeta.
      destruct (log_on_file ts (db s') fs Hcov Hsnap) as [Hrows Hc].
      destruct (logTopstepTradesToDatabase ts (mkState (db s') fs))
        as [[[c2|e2] s2] t2]; unfold rows_after, state_of, outcome_of in *;
        simpl in *; rewrite Hrows; repeat split; try discriminate.
      intros c0 E. injection E as <-. now rewrite (Hc c2 eq_refl).
    + rewrite (log_on_file_fault_free ts (db s') Hcov). simpl.
      rewrite Hsum. repeat f_equal. rewrite Hdb. reflexivity.
  - intros H. injection H as <- <- <-. split; [|reflexivity].
    intros fs. cbv zeta. unfold rows_after, state_of. simpl.
    repeat split. discriminate.
Qed.

Lemma sync_twice_inserts_nothing_witness :
  syncWindow sample_env sample_search 7 "2025-06-01T00:00:00Z"
    "2025-06-02T15:00:00Z" (fault_free Sqlite.empty)
  = (Synced (Some (mkCounts 2 0)),
     fault_free (Sqlite.mkdb [row_a; row_c] None),
     insert_events [row_a; row_c] ++ [SqlCommitted])
  /\ syncWindow sample_env sample_search 7 "2025-06-01T00:00:00Z"
       "2025-06-02T15:00:00Z" (fault_free (Sqlite.mkdb [row_a; row_c] None))
     = (Synced (Some (mkCounts 0 2)),
        fault_free (Sqlite.mkdb [row_a; row_c] None), [SqlCommitted]).
Proof.
  split; [reflexivity|].
  exact (proj2 (sync_twice_inserts_nothing sample_env sample_search 7
                  "2025-06-01T00:00:00Z" "2025-06-02T15:00:00Z"
                  (fault_free Sqlite.empty) (Some (mkCounts 2 0))
                  (fault_free (Sqlite.mkdb [row_a; row_c] None))
                  (insert_events [row_a; row_c] ++ [SqlCommitted])
                  eq_refl)).
Defined.

(** ** The stored shape *)

Lemma tradeToInsert_made_from trade pnl :
  Raw.profitAndLoss trade = Some pnl ->
  made_from (tradeToInsert trade pnl) trade.
Proof. intros P. unfold made_from. simpl. rewrite P. repeat split. Qed.

(** The rows a resolved batch added to the table, with the records they
    were made from. *)
Lemma new_rows_origin ts s c s' t r :
  logTopstepTradesToDatabase ts s = (Resolved c, s', t) ->
  In r (Sqlite.rows (db s')) -> ~ In r (Sqlite.rows (db s)) ->
  exists trade pnl,
    In trade ts /\ Raw.profitAndLoss trade = Some pnl
    /\ r = tradeToInsert trade pnl.
Proof.
  intros H Hin Hnew.
  apply log_resolved in H as (ins & _ & Hdb & Hall & _).
  rewrite Hdb in Hin. simpl in Hin.
  apply in_app_or in Hin as [Hin|Hin]; [contradiction|].
  rewrite Forall_forall in Hall. now apply Hall.
Qed.

(** C5: a row that a batch stored holds side "buy" when the remote side
    code of its record is 1, and "sell" for every other code. *)
Theorem stored_side_inverts_remote_code ts s c s' t r :
  logTopstepTradesToDatabase ts s = (Resolved c, s', t) ->
  In r (Sqlite.rows (db s')) -> ~ In r (Sqlite.rows (db s)) ->
  exists trade,
    In trade ts /\ made_from r trade
    /\ (Raw.side trade = 1%Z -> Stored.side r = "buy")
    /\ (Raw.side trade <> 1%Z -> Stored.side r = "sell").
Proof.
  intros H Hin Hnew.
  destruct (new_rows_origin _ _ _ _ _ _ H Hin Hnew) as (trade & pnl & Hts & P & ->).
  exists trade. split; [exact Hts|]. split; [now apply tradeToInsert_made_from|].
  simpl. unfold sideText. split.
  - now intros ->.
  - intros Hne. apply Z.eqb_neq in Hne. now rewrite Hne.
Qed.

Lemma stored_side_inverts_remote_code_witness :
  exists trade,
    In trade [trade_a; trade_b; trade_c] /\ made_from row_c trade
    /\ (Raw.side trade = 1%Z -> Stored.side row_c = "buy")
    /\ (Raw.side trade <> 1%Z -> Stored.side row_c = "sell").
Proof.
  apply (stored_side_inverts_remote_code [trade_a; trade_b; trade_c]
           (fault_free Sqlite.empty) (mkCounts 2 0)
           (fault_free (Sqlite.mkdb [row_a; row_c] None))
           (insert_events [row_a; row_c] ++ [SqlCommitted]) row_c).
  - reflexivity.
  - simpl. right. left. reflexivity.
  - simpl. intros [].
Defined.

Lemma overflow_positive : (0 < Js.overflow)%Q.
Proof. reflexivity. Qed.

(** [x * 2] on doubles: the exact product inside the range, an infinity
    from 2^1023 up and from -2^1023 down. *)
Lemma times_two_cases x :
  ((- Js.overflow < x < Js.overflow)%Q -> Js.times_two x = Js.Num (x * 2))
  /\ ((Js.overflow <= x)%Q -> Js.times_two x = Js.PosInfinity)
  /\ ((x <= - Js.overflow)%Q -> Js.times_two x = Js.NegInfinity).
Proof.
  pose proof overflow_positive as Hpos.
  unfold Js.times_two.
  destruct (Qle_bool Js.overflow x) eqn:E1.
  - apply Qle_bool_iff in E1. repeat split; auto; intros; lra.
  - assert (H1 : ~ (Js.overflow <= x)%Q)
      by (intros H; apply Qle_bool_iff in H; congruence).
    destruct (Qle_bool x (- Js.overflow)) eqn:E2.
    + apply Qle_bool_iff in E2. repeat split; auto; intros; lra.
    + assert (H2 : ~ (x <= - Js.overflow)%Q)
        by (intros H; apply Qle_bool_iff in H; congruence).
      repeat split; auto; intros; contradiction.
Qed.

(** C6, within the range of a double: a row that a batch stored holds
    exactly twice the fees of its record as long as the product is a
    finite double, that is for fees of magnitude below 2^1023; for fees
    from 2^1023 up it holds Infinity, and -Infinity from -2^1023 down. *)
Theorem stored_fees_are_doubled ts s c s' t r :
  logTopstepTradesToDatabase ts s = (Resolved c, s', t) ->
  In r (Sqlite.rows (db s')) -> ~ In r (Sqlite.rows (db s)) ->
  exists trade,
    In trade ts /\ made_from r trade
    /\ ((- Js.overflow < Raw.fees trade < Js.overflow)%Q ->
        exists q, Stored.fees r = Js.Num q /\ (q == 2 * Raw.fees trade)%Q)
    /\ ((Js.overflow <= Raw.fees trade)%Q -> Stored.fees r = Js.PosInfinity)
    /\ ((Raw.fees trade <= - Js.overflow)%Q ->
        Stored.fees r = Js.NegInfinity).
Proof.
  intros H Hin Hnew.
  destruct (new_rows_origin _ _ _ _ _ _ H Hin Hnew) as (trade & pnl & Hts & P & ->).
  exists trade. split; [exact Hts|]. split; [now apply tradeToInsert_made_from|].
  destruct (times_two_cases (Raw.fees trade)) as (Hin_range & Hup & Hdown).
  simpl. split; [|split; assumption].
  intros Hr. exists (Raw.fees trade * 2)%Q.
  split; [now apply Hin_range|apply Qmult_comm].
Qed.

(** Remote fees 2.50 are stored as 5.00. *)
Lemma stored_fees_are_doubled_witness :
  (Raw.fees trade_a == 5 # 2)%Q
  /\ Stored.fees row_a = Js.Num (10 # 2)
  /\ (10 # 2 == 5)%Q
  /\ exists trade,
       In trade [trade_a; trade_b; trade_c] /\ made_from row_a trade
       /\ ((- Js.overflow < Raw.fees trade < Js.overflow)%Q ->
           exists q,
             Stored.fees row_a = Js.Num q /\ (q == 2 * Raw.fees trade)%Q)
       /\ ((Js.overflow <= Raw.fees trade)%Q ->
           Stored.fees row_a = Js.PosInfinity)
       /\ ((Raw.fees trade <= - Js.overflow)%Q ->
           Stored.fees row_a = Js.NegInfinity).
Proof.
  split; [reflexivity|]. split; [reflexivity|]. split; [reflexivity|].
  apply (stored_fees_are_doubled [trade_a; trade_b; trade_c]
           (fault_free Sqlite.empty) (mkCounts 2 0)
           (fault_free (Sqlite.mkdb [row_a; row_c] None))
           (insert_events [row_a; row_c] ++ [SqlCommitted]) row_a).
  - reflexivity.
  - simpl. left. reflexivity.
  - simpl. intros [].
Defined.

(** A record with fees 2^1023 is inserted, and the stored fees are
    Infinity: not twice the remote fees. *)
Lemma huge_fees_are_stored_as_infinity :
  logTopstepTradesToDatabase [trade_huge] (fault_free Sqlite.empty)
  = (Resolved (mkCounts 1 0), fault_free (Sqlite.mkdb [row_huge] None),
     [SqlInserted row_huge; EmitNewTrade row_huge; SqlCommitted])
  /\ made_from row_huge trade_huge
  /\ Stored.fees row_huge = Js.PosInfinity
  /\ ~ (exists q, Stored.fees row_huge = Js.Num q
                  /\ (q == 2 * Raw.fees trade_huge)%Q).
Proof.
  split; [reflexivity|].
  split; [unfold made_from; simpl; repeat split|].
  split; [reflexivity|].
  intros (q & E & _). discriminate E.
Qed.

(** ** Rollback *)

Lemma agree_on_primary_key_refl r :
  Sqlite.agree_on Sqlite.primary_key r r = true.
Proof.
  unfold Sqlite.agree_on. simpl.
  now rewrite !Z.eqb_refl, String.eqb_refl.
Qed.

(** An INSERT that went through appended a row the table did not hold. *)
Lemma insert_ok_fresh d r d' :
  Sqlite.insert d r = inr d' -> ~ In r (Sqlite.rows d).
Proof.
  intros H Hin. apply insert_ok in H as [Hex _].
  assert (existsb (Sqlite.agree_on Sqlite.primary_key r) (Sqlite.rows d) = true)
    by (apply existsb_exists; exists r; split;
        [exact Hin|apply agree_on_primary_key_refl]).
  congruence.
Qed.

Lemma in_insert_events r ins :
  In r ins <-> In (SqlInserted r) (insert_events ins).
Proof.
  unfold insert_events. rewrite in_flat_map. split.
  - intros H. exists r. simpl. auto.
  - intros (x & Hx & [E|[E|[]]]); [|discriminate]. now injection E as <-.
Qed.

Lemma in_insert_events_emit r ins :
  In r ins <-> In (EmitNewTrade r) (insert_events ins).
Proof.
  unfold insert_events. rewrite in_flat_map. split.
  - intros H. exists r. simpl. auto.
  - intros (x & Hx & [E|[E|[]]]); [discriminate|]. now injection E as <-.
Qed.

(** No row the loop inserted was in the table when the loop began. *)
Lemma process_fresh ts : forall c s o s' t,
  process_trades ts c s = (o, s', t) ->
  forall r, In (SqlInserted r) t -> ~ In r (Sqlite.rows (db s)).
Proof.
  induction ts as [|tr rest IH]; intros c s o s' t H r Hr.
  - injection H as <- <- <-. destruct Hr.
  - destruct (Raw.profitAndLoss tr) as [pnl|] eqn:P.
    + rewrite (process_some _ _ _ _ _ P) in H.
      loop_cases H; try (now destruct Hr).
      * destruct Hr as [E|[E|Hr]]; [|discriminate|].
        -- injection E as <-. eapply insert_ok_fresh; eauto.
        -- pose proof (IH _ _ _ _ _ Hrest r Hr) as Hn.
           apply insert_ok in Hins as [_ ->]. simpl in Hn.
           intros Hin. apply Hn, in_or_app. now left.
      * exact (IH _ _ _ _ _ H r Hr).
    + rewrite (process_null _ _ _ P) in H. eauto.
Qed.

(** A batch rejected from inside the loop: the table is back at the
    transaction base, which holds none of the rows the batch inserted. *)
Lemma log_rolled_back ts s k e s' t :
  consistent (db s) ->
  logTopstepTradesToDatabase ts s = (Rejected (k, e), s', t) ->
  k <> COMMIT ->
  exists ins,
    t = insert_events ins ++ [SqlRolledBack]
    /\ db s' = Sqlite.mkdb (transaction_base (db s)) None
    /\ forall r, In r ins -> ~ In r (transaction_base (db s)).
Proof.
  intros Hcons H Hk.
  destruct (log_rejected _ _ _ _ _ _ H Hk) as (ins & Ht & Hdb & _).
  exists ins. repeat split; auto.
  intros r Hr Hbase.
  rewrite log_unfold in H.
  destruct (process_trades ts _ _) as [[[c1|e1] s1] t1] eqn:Hp.
  - destruct (next_fault (faults s1)) as [[e1|] fs]; [|discriminate].
    injection H as <- _ _ _. now apply Hk.
  - injection H as _ _ <-.
    apply app_inv_tail in Ht. subst t1.
    apply (process_fresh _ _ _ _ _ _ Hp r); [now apply in_insert_events|].
    simpl. rewrite begun_rows.
    unfold consistent, transaction_base in *.
    destruct (Sqlite.snapshot (db s)) as [base|]; [|exact Hbase].
    destruct Hcons as (added & ->). apply in_or_app. now left.
Qed.

Lemma base_without_transaction d :
  Sqlite.snapshot d = None -> Sqlite.mkdb (transaction_base d) None = d.
Proof.
  unfold transaction_base. destruct d as [rs sn]. simpl. now intros ->.
Qed.

Lemma process_app before : forall after c s,
  process_trades (before ++ after) c s =
  match process_trades before c s with
  | (Resolved c1, s1, t1) =>
      let '(o, s2, t2) := process_trades after c1 s1 in (o, s2, t1 ++ t2)
  | r => r
  end.
Proof.
  induction before as [|tr rest IH]; intros after c s.
  - simpl. unfold ret. now destruct (process_trades after c s) as [[o s2] t2].
  - destruct (Raw.profitAndLoss tr) as [pnl|] eqn:P.
    + change ((tr :: rest) ++ after) with (tr :: (rest ++ after)).
      rewrite !(process_some _ _ _ _ _ P). cbv zeta.
      destruct (next_fault (faults s)) as [[f|] fs]; [reflexivity|].
      destruct (Nat.eqb _ 0); [|apply IH].
      destruct (next_fault fs) as [[f'|] fs']; [reflexivity|].
      destruct (Sqlite.insert _ _) as [e|d]; [reflexivity|].
      rewrite IH.
      destruct (process_trades rest _ _) as [[[c1|e1] s1] t1]; [|reflexivity].
      now destruct (process_trades after c1 s1) as [[o s2] t2].
    + change ((tr :: rest) ++ after) with (tr :: (rest ++ after)).
      rewrite !(process_null _ _ _ P). apply IH.
Qed.

(** C7: when the INSERT of a record of a batch fails, for another reason
    than the record being on file, the call is rejected with that error
    after a ROLLBACK: the table is back where the transaction began (the
    store as it was before the call, when no transaction was left open),
    and none of the rows inserted for the records before is in it. *)
Theorem failed_insert_rolls_batch_back before trade pnl after s c1 s1 t1 e :
  consistent (db s) ->
  process_trades before (mkCounts 0 0) (loop_start s) = (Resolved c1, s1, t1) ->
  Raw.profitAndLoss trade = Some pnl ->
  insert_fails trade pnl s1 e ->
  exists fs,
    logTopstepTradesToDatabase (before ++ trade :: after) s
    = (Rejected (INSERT, e),
       mkState (Sqlite.mkdb (transaction_base (db s)) None) fs,
       t1 ++ [SqlRolledBack])
    /\ (Sqlite.snapshot (db s) = None ->
        Sqlite.mkdb (transaction_base (db s)) None = db s)
    /\ (forall r, In (SqlInserted r) t1 \/ In (EmitNewTrade r) t1 ->
                  ~ In r (transaction_base (db s))).
Proof.
  intros Hcons Hbefore P (Hoff & fs & Hsel & Hfail).
  assert (Hrun : exists fs',
            process_trades (before ++ trade :: after) (mkCounts 0 0)
              (loop_start s)
            = (Rejected (INSERT, e), mkState (db s1) fs', t1)).
  { rewrite process_app, Hbefore, (process_some _ _ _ _ _ P). cbv zeta.
    rewrite Hsel, count_zero_on_file, Hoff. simpl.
    destruct (next_fault fs) as [f' fs'] eqn:Hnext. simpl in Hfail.
    exists fs'. destruct Hfail as [-> | [-> ->]]; now rewrite app_nil_r. }
  destruct Hrun as (fs' & Hrun).
  pose proof (process_spec _ _ _ _ _ _ Hbefore)
    as (ins & Ht1 & _ & Hsnap & _).
  unfold loop_start in Hsnap, Hrun. simpl in Hsnap.
  rewrite begun_base in Hsnap.
  exists fs'. split; [|split].
  - rewrite log_unfold, Hrun. simpl.
    now rewrite (rolled_back_to_base _ _ Hsnap).
  - apply base_without_transaction.
  - intros r Hr Hbase.
    assert (Hins : In (SqlInserted r) t1).
    { destruct Hr as [Hr|Hr]; [exact Hr|]. subst t1.
      now apply in_insert_events, in_insert_events_emit. }
    apply (process_fresh _ _ _ _ _ _ Hbefore r Hins).
    unfold loop_start. simpl. rewrite begun_rows.
    unfold consistent, transaction_base in *.
    destruct (Sqlite.snapshot (db s)) as [base|]; [|exact Hbase].
    destruct Hcons as (added & ->). apply in_or_app. now left.
Qed.

Lemma failed_insert_rolls_batch_back_witness :
  exists fs,
    logTopstepTradesToDatabase ([trade_a; trade_b] ++ trade_c :: [trade_a])
      (mkState Sqlite.empty [None; None; None; Some Sqlite.SQLITE_IOERR])
    = (Rejected (INSERT, Sqlite.SQLITE_IOERR),
       mkState (Sqlite.mkdb [] None) fs,
       [SqlInserted row_a; EmitNewTrade row_a] ++ [SqlRolledBack])
    /\ (Sqlite.snapshot Sqlite.empty = None ->
        Sqlite.mkdb [] None = Sqlite.empty)
    /\ (forall r,
          In (SqlInserted r) [SqlInserted row_a; EmitNewTrade row_a]
          \/ In (EmitNewTrade r) [SqlInserted row_a; EmitNewTrade row_a] ->
          ~ In r []).
Proof.
  apply (failed_insert_rolls_batch_back [trade_a; trade_b] trade_c (-4 # 1)
           [trade_a]
           (mkState Sqlite.empty [None; None; None; Some Sqlite.SQLITE_IOERR])
           (mkCounts 1 0)
           (mkState (Sqlite.mkdb [row_a] (Some []))
              [None; Some Sqlite.SQLITE_IOERR])
           [SqlInserted row_a; EmitNewTrade row_a] Sqlite.SQLITE_IOERR).
  - exact I.
  - reflexivity.
  - reflexivity.
  - split; [reflexivity|].
    exists [Some Sqlite.SQLITE_IOERR]. split; [reflexivity|].
    left. reflexivity.
Defined.

(** ** Broadcast and transaction *)

(** The events of any batch: an insert-and-broadcast pair for each row it
    appended, then the closing event. *)
Lemma log_trace ts s o s' t :
  logTopstepTradesToDatabase ts s = (o, s', t) ->
  exists ins, t = insert_events ins ++ closing_events o.
Proof.
  rewrite log_unfold.
  destruct (process_trades ts _ _) as [[[c1|e1] s1] t1] eqn:Hp;
    apply process_spec in Hp as (ins & -> & _ & _ & _ & Ho).
  - destruct (next_fault (faults s1)) as [[e1|] fs];
      intros H; injection H as <- <- <-; exists ins; simpl;
      now rewrite ?app_nil_r.
  - intros H. injection H as <- <- <-. exists ins.
    destruct e1 as [k e]. now destruct Ho as [-> | ->].
Qed.

(** C10: in the events of a batch every broadcast comes directly after the
    INSERT of its row went through, and all of them come before the COMMIT
    or ROLLBACK that closes the batch; when the batch is rolled back, every
    row it had inserted was broadcast and is not in the table. *)
Theorem broadcast_precedes_commit ts s o s' t :
  consistent (db s) ->
  logTopstepTradesToDatabase ts s = (o, s', t) ->
  exists ins,
    t = flat_map (fun r => [SqlInserted r; EmitNewTrade r]) ins
        ++ closing_events o
    /\ forall k e, o = Rejected (k, e) -> k <> COMMIT ->
         closing_events o = [SqlRolledBack]
         /\ forall r, In r ins ->
              In (EmitNewTrade r) t /\ ~ In r (Sqlite.rows (db s')).
Proof.
  intros Hcons H.
  destruct (log_trace _ _ _ _ _ H) as (ins & Ht).
  exists ins. split; [exact Ht|].
  intros k e -> Hk.
  destruct (log_rolled_back _ _ _ _ _ _ Hcons H Hk) as (ins' & Ht' & Hdb & Hfresh).
  assert (Hclose : closing_events (Rejected (k, e)) = [SqlRolledBack])
    by (destruct k; simpl; congruence).
  split; [exact Hclose|].
  rewrite Hclose in Ht. rewrite Ht in Ht'. apply app_inv_tail in Ht'.
  intros r Hr. split.
  - rewrite Ht. apply in_or_app. left. now apply in_insert_events_emit.
  - rewrite Hdb. simpl. apply Hfresh.
    apply in_insert_events. rewrite <- Ht'. now apply in_insert_events.
Qed.

Lemma broadcast_precedes_commit_witness :
  logTopstepTradesToDatabase [trade_a; trade_b; trade_c]
    (mkState Sqlite.empty [None; None; None; Some Sqlite.SQLITE_FULL])
  = (Rejected (INSERT, Sqlite.SQLITE_FULL), fault_free Sqlite.empty,
     [SqlInserted row_a; EmitNewTrade row_a; SqlRolledBack])
  /\ exists ins,
       [SqlInserted row_a; EmitNewTrade row_a; SqlRolledBack]
       = flat_map (fun r => [SqlInserted r; EmitNewTrade r]) ins
         ++ closing_events (Rejected (INSERT, Sqlite.SQLITE_FULL))
       /\ forall k e,
            @Rejected Counts (INSERT, Sqlite.SQLITE_FULL) = Rejected (k, e) ->
            k <> COMMIT ->
            closing_events (Rejected (INSERT, Sqlite.SQLITE_FULL))
            = [SqlRolledBack]
            /\ forall r, In r ins ->
                 In (EmitNewTrade r)
                   [SqlInserted row_a; EmitNewTrade row_a; SqlRolledBack]
                 /\ ~ In r (Sqlite.rows (db (fault_free Sqlite.empty))).
Proof.
  split; [reflexivity|].
  apply (broadcast_precedes_commit [trade_a; trade_b; trade_c]
           (mkState Sqlite.empty [None; None; None; Some Sqlite.SQLITE_FULL])
           (Rejected (INSERT, Sqlite.SQLITE_FULL)) (fault_free Sqlite.empty)
           [SqlInserted row_a; EmitNewTrade row_a; SqlRolledBack]).
  - exact I.
  - reflexivity.
Defined.

(** ** The declared primary key *)

Lemma agree_on_primary_key r r' :
  Sqlite.agree_on Sqlite.primary_key r r' = true
  <-> same_account_order_time r r'.
Proof.
  unfold Sqlite.agree_on, same_account_order_time. simpl.
  rewrite andb_true_r, !andb_true_iff, !Z.eqb_eq, String.eqb_eq. tauto.
Qed.

(** C8, as the schema has it: the primary key of the table is exactly
    (accountId, orderId, creationTimestamp).  An INSERT goes through if and
    only if no row on file has the same three values, and then appends the
    row; so of two rows that differ only in broker the second is refused. *)
Theorem primary_key_is_account_order_timestamp :
  Sqlite.primary_key
  = [Sqlite.accountId; Sqlite.orderId; Sqlite.creationTimestamp]
  /\ (forall d r,
        (forall r', In r' (Sqlite.rows d) -> ~ same_account_order_time r r')
        <-> Sqlite.insert d r
            = inr (Sqlite.mkdb (Sqlite.rows d ++ [r]) (Sqlite.snapshot d)))
  /\ (forall d r,
        (exists r', In r' (Sqlite.rows d) /\ same_account_order_time r r')
        <-> Sqlite.insert d r = inl Sqlite.SQLITE_CONSTRAINT)
  /\ (forall d r r',
        In r (Sqlite.rows d) -> differ_only_in_broker r r' ->
        Sqlite.insert d r' = inl Sqlite.SQLITE_CONSTRAINT).
Proof.
  assert (Hyes : forall d r,
            (exists r', In r' (Sqlite.rows d) /\ same_account_order_time r r')
            <-> existsb (Sqlite.agree_on Sqlite.primary_key r) (Sqlite.rows d)
                = true).
  { intros d r. rewrite existsb_exists. split.
    - intros (r' & Hin & Hs). exists r'. split; [exact Hin|].
      now apply agree_on_primary_key.
    - intros (r' & Hin & Hs). exists r'. split; [exact Hin|].
      now apply agree_on_primary_key. }
  split; [reflexivity|]. split; [|split].
  - intros d r. unfold Sqlite.insert.
    destruct (existsb _ _) eqn:E.
    + apply Hyes in E as (r' & Hin & Hs). split; [|discriminate].
      intros Hno. now destruct (Hno r' Hin).
    + split; [reflexivity|]. intros _ r' Hin Hs.
      assert (existsb (Sqlite.agree_on Sqlite.primary_key r) (Sqlite.rows d)
              = true) by (apply Hyes; eauto).
      congruence.
  - intros d r. rewrite Hyes. unfold Sqlite.insert.
    destruct (existsb _ _); split; auto; discriminate.
  - intros d r r' Hin (_ & Ha & _ & Ht & _ & _ & _ & _ & _ & Ho).
    unfold Sqlite.insert.
    assert (E : existsb (Sqlite.agree_on Sqlite.primary_key r') (Sqlite.rows d)
                = true).
    { apply Hyes. exists r. split; [exact Hin|].
      unfold same_account_order_time. auto. }
    now rewrite E.
Qed.

Lemma primary_key_is_account_order_timestamp_witness :
  In row_a (Sqlite.rows (Sqlite.mkdb [row_a] None))
  /\ differ_only_in_broker row_a row_a_kraken
  /\ Sqlite.insert (Sqlite.mkdb [row_a] None) row_a_kraken
     = inl Sqlite.SQLITE_CONSTRAINT.
Proof.
  assert (Hin : In row_a (Sqlite.rows (Sqlite.mkdb [row_a] None)))
    by (simpl; left; reflexivity).
  assert (Hd : differ_only_in_broker row_a row_a_kraken)
    by (unfold differ_only_in_broker; simpl; repeat split; discriminate).
  split; [exact Hin|]. split; [exact Hd|].
  destruct primary_key_is_account_order_timestamp as (_ & _ & _ & Hbroker).
  exact (Hbroker (Sqlite.mkdb [row_a] None) row_a row_a_kraken Hin Hd).
Defined.

(** The table does not take two rows that differ only in broker: the key
    it declares is not (broker, accountId, orderId, creationTimestamp). *)
Lemma primary_key_leaves_broker_out :
  Sqlite.primary_key
  <> [Sqlite.broker; Sqlite.accountId; Sqlite.orderId;
      Sqlite.creationTimestamp]
  /\ differ_only_in_broker row_a row_a_kraken
  /\ Sqlite.insert Sqlite.empty row_a = inr (Sqlite.mkdb [row_a] None)
  /\ Sqlite.insert (Sqlite.mkdb [row_a] None) row_a_kraken
     = inl Sqlite.SQLITE_CONSTRAINT.
Proof.
  split; [discriminate|].
  split; [unfold differ_only_in_broker; simpl; repeat split; discriminate|].
  split; reflexivity.
Qed.

(** ** The scheduled token refresh *)

(** C9, for the failures the callback tells from a success: a scheduled
    refresh whose credentials are missing, or whose remote call throws (no
    answer, or a status outside 2xx), leaves the session token and the rest
    of the environment as they were; the callback returns without throwing
    and writes one line to the error log. *)
Theorem failed_refresh_keeps_token login env :
  refresh_fails login env ->
  exists line,
    scheduledTokenRefresh login env = (Returned, env, [console_error line])
    /\ TOPSTEP_API_SESSION_TOKEN
         (snd (fst (scheduledTokenRefresh login env)))
       = TOPSTEP_API_SESSION_TOKEN env.
Proof.
  unfold refresh_fails, scheduledTokenRefresh, refresh_try.
  intros [H|[H|(message & H)]].
  - rewrite H. simpl. eexists. split; reflexivity.
  - rewrite H, orb_true_r. eexists. split; reflexivity.
  - rewrite H.
    destruct (negb (truthy (TOPSTEP_USERNAME env))
              || negb (truthy (TOPSTEP_API_KEY env)));
      eexists; split; reflexivity.
Qed.

Lemma failed_refresh_keeps_token_witness :
  (refresh_fails login_down sample_env
   /\ exists line,
        scheduledTokenRefresh login_down sample_env
        = (Returned, sample_env, [console_error line])
        /\ TOPSTEP_API_SESSION_TOKEN
             (snd (fst (scheduledTokenRefresh login_down sample_env)))
           = Some "session-1")
  /\ (refresh_fails login_down env_without_key
      /\ exists line,
           scheduledTokenRefresh login_down env_without_key
           = (Returned, env_without_key, [console_error line])
           /\ TOPSTEP_API_SESSION_TOKEN
                (snd (fst (scheduledTokenRefresh login_down env_without_key)))
              = Some "session-1").
Proof.
  assert (H1 : refresh_fails login_down sample_env)
    by (right; right; eexists; reflexivity).
  assert (H2 : refresh_fails login_down env_without_key)
    by (right; left; reflexivity).
  split; (split; [assumption|]).
  - exact (failed_refresh_keeps_token login_down sample_env H1).
  - exact (failed_refresh_keeps_token login_down env_without_key H2).
Defined.

(** A login that the remote refuses in its answer (status 200, success
    false, token null) is a failed refresh that does not keep the token:
    the call does not throw, so the callback overwrites the stored session
    token with the text "null" and logs that the token was refreshed.  The
    previous token does not remain in place and no failure is logged. *)
Lemma refused_login_overwrites_token :
  scheduledTokenRefresh login_refused sample_env
  = (Returned,
     mkEnv (Some "trader") (Some "api-key") (Some "null") (Some "7"),
     [console_log "[CRON] Topstep session token refreshed successfully."])
  /\ TOPSTEP_API_SESSION_TOKEN sample_env = Some "session-1"
  /\ TOPSTEP_API_SESSION_TOKEN
       (snd (fst (scheduledTokenRefresh login_refused sample_env)))
     <> TOPSTEP_API_SESSION_TOKEN sample_env.
Proof. split; [reflexivity|]. split; [reflexivity|discriminate]. Qed.

(** ** Uniqueness of stored keys *)

Lemma where_clause_spec trade r :
  Sqlite.where_clause "topstep" (Raw.orderId trade)
    (Raw.creationTimestamp trade) r = true
  <-> Stored.broker r = "topstep" /\ order_key r = raw_order_key trade.
Proof.
  unfold Sqlite.where_clause, order_key, raw_order_key.
  rewrite !andb_true_iff, Z.eqb_eq, !String.eqb_eq.
  split.
  - intros [[-> ->] ->]. auto.
  - intros [-> E]. injection E as -> ->. auto.
Qed.

Lemma on_file_spec trade t :
  on_file trade t = true
  <-> exists r, In r t /\ Stored.broker r = "topstep"
                /\ order_key r = raw_order_key trade.
Proof.
  unfold on_file. rewrite existsb_exists.
  split; intros (r & Hin & H); exists r; (split; [exact Hin|]);
    now apply where_clause_spec.
Qed.

Lemma not_on_file trade t :
  Forall (fun r => Stored.broker r = "topstep") t ->
  on_file trade t = false ->
  ~ In (raw_order_key trade) (map order_key t).
Proof.
  intros Hall Hoff Hin. apply in_map_iff in Hin as (r & Hk & Hr).
  assert (on_file trade t = true); [|congruence].
  apply on_file_spec. exists r. rewrite Forall_forall in Hall. auto.
Qed.

Lemma table_inv_snoc trade pnl t :
  table_inv t -> on_file trade t = false ->
  table_inv (t ++ [tradeToInsert trade pnl]).
Proof.
  intros [Hall Hnd] Hoff. split.
  - apply Forall_app. split; [exact Hall|]. now constructor.
  - rewrite map_app. apply NoDup_app; [exact Hnd| |].
    + constructor; [intros []|constructor].
    + intros k Hk [<-|[]]. now apply (not_on_file trade t Hall Hoff).
Qed.

Lemma table_inv_prefix t added : table_inv (t ++ added) -> table_inv t.
Proof.
  intros [Hall Hnd]. split.
  - now apply Forall_app in Hall as [? _].
  - rewrite map_app in Hnd. now apply NoDup_app_remove_r in Hnd.
Qed.

(** Among tagged rows the duplicate check is at least as strict as the
    primary key: a record that is not on file is not refused. *)
Lemma insert_not_on_file d trade pnl :
  Forall (fun r => Stored.broker r = "topstep") (Sqlite.rows d) ->
  on_file trade (Sqlite.rows d) = false ->
  Sqlite.insert d (tradeToInsert trade pnl)
  = inr (Sqlite.mkdb (Sqlite.rows d ++ [tradeToInsert trade pnl])
           (Sqlite.snapshot d)).
Proof.
  intros Hall Hoff. unfold Sqlite.insert.
  destruct (existsb _ _) eqn:E; [|reflexivity].
  apply existsb_exists in E as (r & Hin & Hs).
  apply agree_on_primary_key in Hs as (_ & Ho & Ht). simpl in Ho, Ht.
  assert (on_file trade (Sqlite.rows d) = true); [|congruence].
  apply on_file_spec. exists r. rewrite Forall_forall in Hall.
  repeat split; auto. unfold order_key, raw_order_key. congruence.
Qed.

Lemma process_inv ts : forall c s o s' t,
  table_inv (Sqlite.rows (db s)) ->
  process_trades ts c s = (o, s', t) ->
  table_inv (Sqlite.rows (db s')).
Proof.
  induction ts as [|tr rest IH]; intros c s o s' t Hinv H.
  - now injection H as <- <- <-.
  - destruct (Raw.profitAndLoss tr) as [pnl|] eqn:P.
    + rewrite (process_some _ _ _ _ _ P) in H.
      loop_cases H; auto.
        eapply IH; [|exact Hrest]. simpl.
        apply insert_ok in Hins as [_ ->]. simpl.
        apply table_inv_snoc; [exact Hinv|].
        rewrite count_zero_on_file in Hcount.
        now apply negb_true_iff in Hcount.
      * eapply IH; [|exact H]. exact Hinv.
    + rewrite (process_null _ _ _ P) in H. eauto.
Qed.

(** Every batch keeps the invariant, whatever the storage does. *)
Lemma log_inv ts s :
  db_inv (db s) ->
  db_inv (db (state_of (logTopstepTradesToDatabase ts s))).
Proof.
  intros [Hinv Hcons]. rewrite log_unfold.
  destruct (process_trades ts _ _) as [[o s1] t1] eqn:Hp.
  assert (Hinv1 : table_inv (Sqlite.rows (db s1))).
  { apply (process_inv _ _ _ _ _ _) with (2 := Hp).
    simpl. now rewrite begun_rows. }
  apply process_spec in Hp as (ins & _ & Hrows & Hsnap & _).
  simpl in Hrows, Hsnap. rewrite begun_rows in Hrows.
  rewrite begun_base in Hsnap.
  assert (Hbase : exists added,
            Sqlite.rows (db s1) = transaction_base (db s) ++ added).
  { unfold consistent, transaction_base in *.
    destruct (Sqlite.snapshot (db s)) as [base|].
    - destruct Hcons as (added & E). exists (added ++ ins).
      now rewrite Hrows, E, app_assoc.
    - now exists ins. }
  destruct o as [c|e].
  - destruct (next_fault (faults s1)) as [[e|] fs]; unfold state_of; simpl.
    + split; [exact Hinv1|]. unfold consistent. now rewrite Hsnap.
    + split; [exact Hinv1|exact I].
  - unfold state_of. simpl. rewrite (rolled_back_to_base _ _ Hsnap).
    split; [|exact I]. simpl.
    destruct Hbase as (added & E). rewrite E in Hinv1.
    now apply table_inv_prefix in Hinv1.
Qed.

Lemma reachable_inv d : reachable d -> db_inv d.
Proof.
  induction 1 as [|d fs ts _ IH].
  - repeat split; constructor.
  - now apply (log_inv ts (mkState d fs)).
Qed.

Lemma composite_keys_unique t :
  table_inv t -> NoDup (map composite_key t).
Proof.
  intros [_ Hnd]. induction t as [|r t IH]; [constructor|].
  simpl in *. apply NoDup_cons_iff in Hnd as [Hr Hnd].
  constructor; [|now apply IH].
  intros Hin. apply Hr.
  apply in_map_iff in Hin as (r' & Hk & Hin).
  apply in_map_iff. exists r'. split; [|exact Hin].
  unfold composite_key, order_key in *. congruence.
Qed.

Lemma key_eqb_eq k k' : key_eqb k k' = true <-> k = k'.
Proof.
  destruct k as [[[b a] o] c], k' as [[[b' a'] o'] c']. simpl.
  rewrite !andb_true_iff, !Z.eqb_eq, !String.eqb_eq.
  split.
  - intros [[[-> ->] ->] ->]. reflexivity.
  - intros E. injection E as -> -> -> ->. auto.
Qed.

Lemma rows_with_key_cons k r t :
  rows_with_key k (r :: t)
  = if key_eqb (composite_key r) k
    then S (rows_with_key k t) else rows_with_key k t.
Proof.
  unfold rows_with_key. cbn [filter].
  now destruct (key_eqb (composite_key r) k).
Qed.

Lemma rows_with_key_none k t :
  ~ In k (map composite_key t) -> rows_with_key k t = 0.
Proof.
  induction t as [|r t IH]; intros Hn; [reflexivity|].
  rewrite rows_with_key_cons. cbn [map In] in Hn.
  destruct (key_eqb (composite_key r) k) eqn:E.
  - apply key_eqb_eq in E. tauto.
  - apply IH. tauto.
Qed.

Lemma rows_with_key_at_most_one k t :
  NoDup (map composite_key t) -> rows_with_key k t <= 1.
Proof.
  induction t as [|r t IH]; intros Hnd; [unfold rows_with_key; simpl; lia|].
  cbn [map] in Hnd. apply NoDup_cons_iff in Hnd as [Hr Hnd].
  rewrite rows_with_key_cons.
  destruct (key_eqb (composite_key r) k) eqn:E; [|now apply IH].
  apply key_eqb_eq in E. subst k.
  rewrite (rows_with_key_none _ _ Hr). lia.
Qed.

Lemma rows_with_key_present k t r :
  In r t -> composite_key r = k -> 1 <= rows_with_key k t.
Proof.
  induction t as [|x t IH]; intros Hin Hk; [destruct Hin|].
  rewrite rows_with_key_cons. destruct Hin as [->|Hin].
  - apply key_eqb_eq in Hk. rewrite Hk. lia.
  - specialize (IH Hin Hk). destruct (key_eqb _ _); lia.
Qed.

(** One record with a profit, persisted with no storage fault, on a table
    that keeps the invariant: skipped when on file, appended otherwise. *)
Lemma persist_fault_free trade pnl d :
  table_inv (Sqlite.rows d) ->
  Raw.profitAndLoss trade = Some pnl ->
  persist trade (fault_free d) =
  if on_file trade (Sqlite.rows d)
  then (Resolved (mkCounts 0 1), fault_free (Sqlite.mkdb (Sqlite.rows d) None),
        [SqlCommitted])
  else (Resolved (mkCounts 1 0),
        fault_free
          (Sqlite.mkdb (Sqlite.rows d ++ [tradeToInsert trade pnl]) None),
        [SqlInserted (tradeToInsert trade pnl);
         EmitNewTrade (tradeToInsert trade pnl); SqlCommitted]).
Proof.
  intros [Hall _] P. unfold persist. rewrite log_unfold.
  rewrite (process_some _ _ _ _ _ P). cbv zeta. simpl.
  rewrite count_zero_on_file, begun_rows.
  destruct (on_file trade (Sqlite.rows d)) eqn:Hon; simpl.
  - unfold Sqlite.commit. now rewrite begun_rows.
  - rewrite insert_not_on_file by now rewrite begun_rows.
    simpl. unfold Sqlite.commit. simpl. now rewrite begun_rows.
Qed.

Lemma on_file_same_key ta tb t :
  raw_key ta = raw_key tb -> on_file tb t = on_file ta t.
Proof.
  unfold raw_key, on_file. intros E. injection E as _ -> ->. reflexivity.
Qed.

(** C1, as the code has it.  In every store that batch calls can build
    from the empty table no two rows share the composite key.  Persisting
    two records with the same key and a profit, one call after the other,
    makes the second call report one skipped record and no insert, leaves
    the table of the first call, and leaves at most one row under that key:
    exactly one unless a row with the same order and timestamp was already
    on file under another account, which the duplicate check (on broker,
    orderId and creationTimestamp) takes for the record itself. *)
Theorem stored_keys_stay_unique d :
  reachable d ->
  NoDup (map composite_key (Sqlite.rows d))
  /\ forall ta tb,
       raw_key ta = raw_key tb ->
       has_pnl ta = true -> has_pnl tb = true ->
       let first := persist ta (fault_free d) in
       let second := persist tb (fault_free (db (state_of first))) in
       (exists c, outcome_of first = Resolved c)
       /\ outcome_of second = Resolved (mkCounts 0 1)
       /\ rows_after second = rows_after first
       /\ NoDup (map composite_key (rows_after first))
       /\ NoDup (map composite_key (rows_after second))
       /\ rows_with_key (raw_key ta) (rows_after second) <= 1
       /\ ((forall r, In r (Sqlite.rows d) ->
              order_key r = raw_order_key ta ->
              Stored.accountId r = Raw.accountId ta) ->
           rows_with_key (raw_key ta) (rows_after second) = 1).
Proof.
  intros Hr. destruct (reachable_inv d Hr) as [Hinv _].
  split; [now apply composite_keys_unique|].
  intros ta tb Hkey Ha Hb first second.
  unfold has_pnl in Ha, Hb.
  destruct (Raw.profitAndLoss ta) as [pa|] eqn:Pa; [|discriminate].
  destruct (Raw.profitAndLoss tb) as [pb|] eqn:Pb; [|discriminate].
  assert (Hfirst : exists t1 c1 e1,
            first = (Resolved c1, fault_free (Sqlite.mkdb t1 None), e1)
            /\ table_inv t1 /\ on_file ta t1 = true
            /\ ((forall r, In r (Sqlite.rows d) ->
                   order_key r = raw_order_key ta ->
                   Stored.accountId r = Raw.accountId ta) ->
                exists r, In r t1 /\ composite_key r = raw_key ta)).
  { subst first second. rewrite (persist_fault_free ta pa d Hinv Pa).
    destruct (on_file ta (Sqlite.rows d)) eqn:Hon.
    - exists (Sqlite.rows d). do 2 eexists. split; [reflexivity|].
      repeat split; try assumption; try apply Hinv.
      intros Hacc. apply on_file_spec in Hon as (r & Hin & Hbr & Hok).
      exists r. split; [exact Hin|].
      specialize (Hacc r Hin Hok).
      unfold composite_key, raw_key, order_key, raw_order_key in *.
      congruence.
    - exists (Sqlite.rows d ++ [tradeToInsert ta pa]). do 2 eexists.
      split; [reflexivity|].
      pose proof (table_inv_snoc ta pa _ Hinv Hon) as Hinv1.
      repeat split; try apply Hinv1.
      + now rewrite on_file_app, on_file_own_row, orb_true_r.
      + intros _. exists (tradeToInsert ta pa). split; [|reflexivity].
        apply in_or_app. right. now left. }
  destruct Hfirst as (t1 & c1 & e1 & Hf & Hinv1 & Hon1 & Hrow).
  assert (Hsecond : second
            = (Resolved (mkCounts 0 1), fault_free (Sqlite.mkdb t1 None),
               [SqlCommitted])).
  { subst second. rewrite Hf. unfold state_of. simpl.
    rewrite (persist_fault_free tb pb (Sqlite.mkdb t1 None) Hinv1 Pb). simpl.
    now rewrite (on_file_same_key ta tb t1 Hkey), Hon1. }
  rewrite Hsecond, Hf. unfold outcome_of, rows_after, state_of. simpl.
  pose proof (composite_keys_unique t1 Hinv1) as Hnd.
  pose proof (rows_with_key_at_most_one (raw_key ta) t1 Hnd) as Hle.
  repeat split; eauto.
  intros Hacc. destruct (Hrow Hacc) as (r & Hin & Hk).
  pose proof (rows_with_key_present (raw_key ta) t1 r Hin Hk). lia.
Qed.

Lemma stored_keys_stay_unique_witness :
  reachable Sqlite.empty
  /\ persist trade_a (fault_free Sqlite.empty)
     = (Resolved (mkCounts 1 0), fault_free (Sqlite.mkdb [row_a] None),
        [SqlInserted row_a; EmitNewTrade row_a; SqlCommitted])
  /\ outcome_of (persist trade_a (fault_free (Sqlite.mkdb [row_a] None)))
     = Resolved (mkCounts 0 1)
  /\ rows_with_key (raw_key trade_a)
       (rows_after (persist trade_a (fault_free (Sqlite.mkdb [row_a] None))))
     = 1.
Proof.
  split; [exact reachable_empty|]. split; [reflexivity|].
  destruct (stored_keys_stay_unique Sqlite.empty reachable_empty)
    as [_ Htwice].
  destruct (Htwice trade_a trade_a eq_refl eq_refl eq_refl)
    as (_ & Hsecond & _ & _ & _ & _ & Hone).
  split; [exact Hsecond|].
  apply Hone. intros r [].
Defined.

(** Two records with the same key and a profit, persisted after a record
    of another account with the same order and timestamp: both calls
    report skipped, and no row is stored under their key. *)
Lemma same_key_twice_stores_no_row :
  reachable store_other_account
  /\ raw_key trade_a = raw_key trade_a
  /\ has_pnl trade_a = true
  /\ persist trade_a (fault_free store_other_account)
     = (Resolved (mkCounts 0 1), fault_free store_other_account,
        [SqlCommitted])
  /\ rows_with_key (raw_key trade_a)
       (rows_after (persist trade_a (fault_free store_other_account)))
     = 0
  /\ rows_with_key (raw_key trade_a)
       (rows_after
          (persist trade_a
             (fault_free
                (db (state_of
                       (persist trade_a (fault_free store_other_account)))))))
     <> 1.
Proof.
  split; [exact (reachable_batch [] [trade_a'] reachable_empty)|].
  repeat split. discriminate.
Qed.

(** ** A batch without storage faults returns its counters *)

Lemma process_fault_free_resolves ts : forall c d,
  table_inv (Sqlite.rows d) ->
  exists c' d' t,
    process_trades ts c (fault_free d) = (Resolved c', fault_free d', t).
Proof.
  induction ts as [|tr rest IH]; intros c d Hinv.
  - now exists c, d, [].
  - destruct (Raw.profitAndLoss tr) as [pnl|] eqn:P.
    + rewrite (process_some _ _ _ _ _ P). cbv zeta. simpl.
      rewrite count_zero_on_file.
      destruct (on_file tr (Sqlite.rows d)) eqn:Hon; simpl.
      * apply (IH _ d Hinv).
      * rewrite (insert_not_on_file d tr pnl (proj1 Hinv) Hon).
        destruct (IH (mkCounts (S (inserted c)) (skipped c))
                    (Sqlite.mkdb (Sqlite.rows d ++ [tradeToInsert tr pnl])
                       (Sqlite.snapshot d)))
          as (c' & d' & t & E); [now apply table_inv_snoc|].
        unfold fault_free in E. rewrite E. now eexists _, _, _.
    + rewrite (process_null _ _ _ P). now apply IH.
Qed.

(** From every store the batch calls can build, a batch that meets no
    storage fault resolves with counters. *)
Lemma log_fault_free_resolves ts d :
  reachable d ->
  exists c d' t,
    logTopstepTradesToDatabase ts (fault_free d)
    = (Resolved c, fault_free d', t).
Proof.
  intros Hr. destruct (reachable_inv d Hr) as [Hinv _].
  rewrite log_unfold. simpl.
  destruct (process_fault_free_resolves ts (mkCounts 0 0) (begun d))
    as (c & d' & t & E); [now rewrite begun_rows|].
  unfold fault_free in E. rewrite E. simpl. now eexists _, _, _.
Qed.

(** * More properties of the store *)

(** ** What a batch does to the table *)

Lemma built_from_complete ts r :
  built_from ts r ->
  Stored.broker r = "topstep" /\ Stored.profitAndLoss r <> None.
Proof. intros (trade & pnl & _ & _ & ->). split; [reflexivity|discriminate]. Qed.

(** The table after a batch, in terms of the table before: the rows kept
    are appended to it, or, after a rollback, it is the transaction base. *)
Lemma log_rows ts s :
  exists ins,
    Forall (built_from ts) ins
    /\ (rows_after (logTopstepTradesToDatabase ts s)
        = Sqlite.rows (db s) ++ ins
        \/ rows_after (logTopstepTradesToDatabase ts s)
           = transaction_base (db s)
           /\ exists k e,
                outcome_of (logTopstepTradesToDatabase ts s) = Rejected (k, e)
                /\ k <> COMMIT).
Proof.
  rewrite log_unfold.
  destruct (process_trades ts _ _) as [[o s1] t1] eqn:Hp.
  pose proof (process_spec _ _ _ _ _ _ Hp) as (ins & _ & Hrows & Hsnap & Hall & Ho).
  simpl in Hrows, Hsnap. rewrite begun_rows in Hrows.
  rewrite begun_base in Hsnap.
  exists ins. split; [exact Hall|].
  destruct o as [c|[k e]].
  - left. destruct (next_fault (faults s1)) as [[e|] fs];
      unfold rows_after, state_of; simpl; exact Hrows.
  - right. unfold rows_after, state_of, outcome_of. simpl.
    rewrite (rolled_back_to_base _ _ Hsnap). split; [reflexivity|].
    exists k, e. split; [reflexivity|]. destruct Ho as [-> | ->]; discriminate.
Qed.

Lemma reachable_complete d :
  reachable d ->
  Forall (fun r => Stored.broker r = "topstep"
                   /\ Stored.profitAndLoss r <> None) (Sqlite.rows d).
Proof.
  induction 1 as [|d fs ts Hr IH]; [constructor|].
  destruct (reachable_inv d Hr) as [_ Hcons].
  destruct (log_rows ts (mkState d fs)) as (ins & Hall & [E | [E _]]);
    unfold rows_after in E; rewrite E; simpl.
  - apply Forall_app. split; [exact IH|].
    eapply Forall_impl; [|exact Hall]. apply built_from_complete.
  - unfold consistent, transaction_base in *.
    destruct (Sqlite.snapshot d) as [base|]; [|exact IH].
    destruct Hcons as (added & E'). rewrite E' in IH.
    now apply Forall_app in IH as [? _].
Qed.

(** X1: every row of a store that batch calls can build from the empty
    table carries the broker tag "topstep" and the side text "buy" or
    "sell", whatever the records held and whatever faults the storage
    raised. *)
Theorem reachable_rows_are_tagged d :
  reachable d ->
  Forall (fun r => Stored.broker r = "topstep"
                   /\ (Stored.side r = "buy" \/ Stored.side r = "sell"))
         (Sqlite.rows d).
Proof.
  induction 1 as [|d fs ts Hr IH]; [constructor|].
  destruct (reachable_inv d Hr) as [_ Hcons].
  destruct (log_rows ts (mkState d fs)) as (ins & Hall & [E | [E _]]);
    unfold rows_after in E; rewrite E; simpl.
  - apply Forall_app. split; [exact IH|].
    eapply Forall_impl; [|exact Hall].
    intros r (trade & pnl & _ & _ & ->). split; [reflexivity|].
    unfold tradeToInsert, sideText. simpl.
    destruct (Z.eqb (Raw.side trade) 1); [left|right]; reflexivity.
  - unfold consistent, transaction_base in *.
    destruct (Sqlite.snapshot d) as [base|]; [|exact IH].
    destruct Hcons as (added & E'). rewrite E' in IH.
    now apply Forall_app in IH as [? _].
Qed.

Lemma reachable_rows_are_tagged_witness :
  reachable (Sqlite.mkdb [row_a; row_c] None)
  /\ Forall (fun r => Stored.broker r = "topstep"
                      /\ (Stored.side r = "buy" \/ Stored.side r = "sell"))
            [row_a; row_c].
Proof.
  assert (H : reachable (Sqlite.mkdb [row_a; row_c] None))
    by exact (reachable_batch [] [trade_a; trade_b; trade_c] reachable_empty).
  split; [exact H|].
  exact (reachable_rows_are_tagged (Sqlite.mkdb [row_a; row_c] None) H).
Defined.

Lemma log_appends ts s :
  Sqlite.snapshot (db s) = None ->
  exists kept,
    rows_after (logTopstepTradesToDatabase ts s) = Sqlite.rows (db s) ++ kept
    /\ Forall (built_from ts) kept
    /\ (forall k e,
          outcome_of (logTopstepTradesToDatabase ts s) = Rejected (k, e) ->
          k <> COMMIT -> kept = []).
Proof.
  intros Hsnap.
  destruct (log_rows ts s) as (ins & Hall & [E | (E & k & e & Ho & Hk)]).
  - exists ins. repeat split; auto.
    intros k e Ho Hk. rewrite log_unfold in E, Ho.
    destruct (process_trades ts _ _) as [[[c|[k1 e1]] s1] t1] eqn:Hp.
    + destruct (next_fault (faults s1)) as [[e2|] fs];
        unfold outcome_of in Ho; simpl in Ho; [|discriminate].
      injection Ho as <- _. now destruct Hk.
    + unfold rows_after, state_of in E. simpl in E.
      apply process_spec in Hp as (ins' & _ & _ & Hs & _).
      simpl in Hs. rewrite begun_base in Hs.
      rewrite (rolled_back_to_base _ _ Hs) in E. simpl in E.
      unfold transaction_base in E. rewrite Hsnap in E.
      rewrite <- (app_nil_r (Sqlite.rows (db s))) in E at 1.
      apply app_inv_head in E. now symmetry.
  - exists []. rewrite app_nil_r. repeat split; auto.
    rewrite E. unfold transaction_base. now rewrite Hsnap.
Qed.

(** X2: a batch that starts with no transaction open never removes or
    changes a stored row: whatever its outcome, the table afterwards is the
    table before with rows built from the batch appended, and nothing is
    appended when the batch is rolled back. *)
Theorem batch_only_appends ts s :
  Sqlite.snapshot (db s) = None ->
  exists kept,
    rows_after (logTopstepTradesToDatabase ts s) = Sqlite.rows (db s) ++ kept
    /\ Forall (built_from ts) kept
    /\ (forall k e,
          outcome_of (logTopstepTradesToDatabase ts s) = Rejected (k, e) ->
          k <> COMMIT -> kept = []).
Proof. apply log_appends. Qed.

Lemma batch_only_appends_witness :
  exists kept,
    rows_after
      (logTopstepTradesToDatabase [trade_c; trade_a]
         (mkState (Sqlite.mkdb [row_a] None)
            [None; Some Sqlite.SQLITE_BUSY]))
    = [row_a] ++ kept
    /\ Forall (built_from [trade_c; trade_a]) kept
    /\ (forall k e,
          outcome_of
            (logTopstepTradesToDatabase [trade_c; trade_a]
               (mkState (Sqlite.mkdb [row_a] None)
                  [None; Some Sqlite.SQLITE_BUSY]))
          = Rejected (k, e) ->
          k <> COMMIT -> kept = []).
Proof.
  apply (batch_only_appends [trade_c; trade_a]
           (mkState (Sqlite.mkdb [row_a] None)
              [None; Some Sqlite.SQLITE_BUSY])).
  reflexivity.
Defined.

(** ** One batch or two *)

(** The loop looks at the rows and the faults only: run with other
    counters and under another snapshot it does the same. *)
Lemma process_reframe ts : forall c s o s' t c0 sn,
  process_trades ts c s = (o, s', t) ->
  process_trades ts (add_counts c c0) (with_snapshot sn s)
  = (shift_outcome c0 o, with_snapshot sn s', t).
Proof.
  induction ts as [|tr rest IH]; intros c s o s' t c0 sn H.
  - injection H as <- <- <-. reflexivity.
  - destruct (Raw.profitAndLoss tr) as [pnl|] eqn:P.
    + rewrite (process_some _ _ _ _ _ P) in H.
      rewrite (process_some _ _ _ _ _ P). cbv zeta in *.
      unfold with_snapshot at 1. simpl.
      change (Sqlite.select_count
                (Sqlite.mkdb (Sqlite.rows (db s)) sn) "topstep"
                (Raw.orderId tr) (Raw.creationTimestamp tr))
        with (Sqlite.select_count (db s) "topstep" (Raw.orderId tr)
                (Raw.creationTimestamp tr)).
      destruct (next_fault (faults s)) as [[f|] fs].
      { injection H as <- <- <-. reflexivity. }
      destruct (Nat.eqb _ 0).
      * destruct (next_fault fs) as [[f'|] fs'].
        { injection H as <- <- <-. reflexivity. }
        unfold Sqlite.insert in *. simpl.
        destruct (existsb _ (Sqlite.rows (db s))).
        { injection H as <- <- <-. reflexivity. }
        destruct (process_trades rest _ (mkState _ fs')) as [[o1 s1] t1] eqn:Hr.
        injection H as <- <- <-.
        apply (IH _ _ _ _ _ c0 sn) in Hr.
        unfold with_snapshot, add_counts in *. simpl in *. rewrite Hr. reflexivity.
      * apply (IH _ _ _ _ _ c0 sn) in H.
        unfold with_snapshot, add_counts in *. simpl in *. exact H.
    + rewrite (process_null _ _ _ P) in H. rewrite (process_null _ _ _ P).
      now apply IH.
Qed.

Lemma process_faults_nil ts : forall c s o s' t,
  process_trades ts c s = (o, s', t) -> faults s = [] -> faults s' = [].
Proof.
  induction ts as [|tr rest IH]; intros c s o s' t H Hf.
  - now injection H as <- <- <-.
  - destruct (Raw.profitAndLoss tr) as [pnl|] eqn:P.
    + rewrite (process_some _ _ _ _ _ P) in H. rewrite Hf in H.
      cbv zeta in H. simpl in H.
      destruct (Nat.eqb _ 0).
      * destruct (Sqlite.insert _ _) as [e|d'].
        { now injection H as <- <- <-. }
        destruct (process_trades rest _ _) as [[o1 s1] t1] eqn:Hr.
        injection H as <- <- <-. now apply IH in Hr.
      * now apply IH in H.
    + rewrite (process_null _ _ _ P) in H. eauto.
Qed.

(** X3: with no storage fault, persisting a batch in one call or in two
    calls, its first part and then the rest, leaves the same store and adds
    up to the same counters; the one call emits the events of both, with
    one COMMIT. *)
Theorem split_batch ts1 ts2 d c1 d1 t1 c2 d2 t2 :
  logTopstepTradesToDatabase ts1 (fault_free d)
  = (Resolved c1, fault_free d1, t1) ->
  logTopstepTradesToDatabase ts2 (fault_free d1)
  = (Resolved c2, fault_free d2, t2) ->
  logTopstepTradesToDatabase (ts1 ++ ts2) (fault_free d)
  = (Resolved (mkCounts (inserted c1 + inserted c2)
                 (skipped c1 + skipped c2)),
     fault_free d2, removelast t1 ++ t2).
Proof.
  rewrite !log_unfold. unfold fault_free. simpl.
  destruct (process_trades ts1 _ _) as [[[c1'|e1] s1] e1'] eqn:H1;
    [|discriminate].
  pose proof (process_faults_nil _ _ _ _ _ _ H1 eq_refl) as Hf1.
  rewrite Hf1. simpl. intros E1. injection E1 as -> <- <-.
  destruct (process_trades ts2 _ _) as [[[c2'|e2] s2] e2'] eqn:H2;
    [|discriminate].
  pose proof (process_faults_nil _ _ _ _ _ _ H2 eq_refl) as Hf2.
  rewrite Hf2. simpl. intros E2. injection E2 as -> <- <-.
  rewrite process_app, H1.
  apply (process_reframe _ _ _ _ _ _ c1 (Sqlite.snapshot (db s1))) in H2.
  unfold with_snapshot in H2. simpl in H2.
  replace (add_counts (mkCounts 0 0) c1) with c1 in H2 by now destruct c1.
  replace (mkState (Sqlite.mkdb (Sqlite.rows (db s1)) (Sqlite.snapshot (db s1))) [])
    with s1 in H2 by (destruct s1 as [[rs sn] fs]; simpl in *; now subst).
  rewrite H2. simpl. rewrite Hf2. simpl.
  rewrite removelast_last, <- app_assoc.
  unfold add_counts. simpl.
  now rewrite (Nat.add_comm (inserted c2)), (Nat.add_comm (skipped c2)).
Qed.

Lemma split_batch_witness :
  logTopstepTradesToDatabase ([trade_a; trade_b] ++ [trade_c; trade_a])
    (fault_free Sqlite.empty)
  = (Resolved (mkCounts (1 + 1) (0 + 1)),
     fault_free (Sqlite.mkdb [row_a; row_c] None),
     removelast [SqlInserted row_a; EmitNewTrade row_a; SqlCommitted]
     ++ [SqlInserted row_c; EmitNewTrade row_c; SqlCommitted]).
Proof.
  apply (split_batch [trade_a; trade_b] [trade_c; trade_a] Sqlite.empty
           (mkCounts 1 0) (Sqlite.mkdb [row_a] None)
           [SqlInserted row_a; EmitNewTrade row_a; SqlCommitted]
           (mkCounts 1 1) (Sqlite.mkdb [row_a; row_c] None)
           [SqlInserted row_c; EmitNewTrade row_c; SqlCommitted]);
    reflexivity.
Defined.

(** ** Clearing the table and syncing again *)

Lemma order_key_tradeToInsert trade pnl :
  order_key (tradeToInsert trade pnl) = raw_order_key trade.
Proof. reflexivity. Qed.

(** X4: [clearTradesTable] either rejects with the error of the DELETE and
    leaves the store as it was, or empties the table; and a batch persisted
    into the emptied table with no storage fault inserts exactly one row
    for each distinct (orderId, creationTimestamp) among its records with a
    profit, counting every other such record as skipped. *)
Theorem clear_then_batch d ts :
  Sqlite.snapshot d = None ->
  (forall e fs,
     clearTradesTable (mkState d (Some e :: fs)) = (inl e, mkState d fs))
  /\ clearTradesTable (fault_free d) = (inr tt, fault_free Sqlite.empty)
  /\ exists rows t,
       logTopstepTradesToDatabase ts
         (snd (clearTradesTable (fault_free d)))
       = (Resolved
            (mkCounts (List.length (distinct_order_keys ts))
               (count_with_pnl ts - List.length (distinct_order_keys ts))),
          fault_free (Sqlite.mkdb rows None), t)
       /\ Permutation (map order_key rows) (distinct_order_keys ts).
Proof.
  intros Hsnap. split; [reflexivity|].
  assert (Hclear : clearTradesTable (fault_free d)
                   = (inr tt, fault_free Sqlite.empty)).
  { unfold clearTradesTable, delete_all, fault_free. simpl. now rewrite Hsnap. }
  split; [exact Hclear|]. rewrite Hclear. simpl.
  destruct (log_fault_free_resolves ts Sqlite.empty reachable_empty)
    as (c & d' & t & Hlog).
  pose proof (reachable_batch [] ts reachable_empty) as Hreach.
  unfold fault_free in Hlog. rewrite Hlog in Hreach.
  unfold state_of in Hreach. simpl in Hreach.
  destruct (reachable_inv _ Hreach) as [[_ Hnd] _].
  pose proof (log_resolved _ _ _ _ _ Hlog)
    as (ins & _ & Hdb & Hall & Hins & Hsum & Hcov).
  simpl in Hdb, Hcov. subst d'. simpl in Hnd, Hcov.
  assert (Hperm : Permutation (map order_key ins) (distinct_order_keys ts)).
  { apply NoDup_Permutation; [exact Hnd|apply NoDup_nodup|].
    intros k. unfold distinct_order_keys. rewrite nodup_In, !in_map_iff.
    split.
    - intros (r & <- & Hr). rewrite Forall_forall in Hall.
      destruct (Hall r Hr) as (trade & pnl & Hin & P & ->).
      exists trade. split; [reflexivity|].
      apply filter_In. split; [exact Hin|]. unfold has_pnl. now rewrite P.
    - intros (trade & <- & Hf). apply filter_In in Hf as [Hin Hp].
      apply (Hcov trade Hin) in Hp.
      apply on_file_spec in Hp as (r & Hr & _ & Hk). now exists r. }
  exists ins, t. split; [|exact Hperm].
  unfold fault_free. rewrite Hlog.
  apply Permutation_length in Hperm. rewrite length_map in Hperm.
  destruct c as [i k]. simpl in *. repeat f_equal; lia.
Qed.

Lemma clear_then_batch_witness :
  (forall e fs,
     clearTradesTable (mkState (Sqlite.mkdb [row_a] None) (Some e :: fs))
     = (inl e, mkState (Sqlite.mkdb [row_a] None) fs))
  /\ clearTradesTable (fault_free (Sqlite.mkdb [row_a] None))
     = (inr tt, fault_free Sqlite.empty)
  /\ exists rows t,
       logTopstepTradesToDatabase [trade_a; trade_a'; trade_b; trade_c]
         (snd (clearTradesTable (fault_free (Sqlite.mkdb [row_a] None))))
       = (Resolved
            (mkCounts
               (List.length
                  (distinct_order_keys [trade_a; trade_a'; trade_b; trade_c]))
               (count_with_pnl [trade_a; trade_a'; trade_b; trade_c]
                - List.length
                    (distinct_order_keys
                       [trade_a; trade_a'; trade_b; trade_c]))),
          fault_free (Sqlite.mkdb rows None), t)
       /\ Permutation (map order_key rows)
            (distinct_order_keys [trade_a; trade_a'; trade_b; trade_c]).
Proof.
  apply (clear_then_batch (Sqlite.mkdb [row_a] None)
           [trade_a; trade_a'; trade_b; trade_c]).
  reflexivity.
Defined.

(** ** Listing the trades *)

Lemma insert_desc_perm r l : Permutation (insert_desc r l) (r :: l).
Proof.
  induction l as [|x l IH]; simpl; [reflexivity|].
  destruct (String.leb _ _); [reflexivity|].
  rewrite IH. apply perm_swap.
Qed.

Lemma order_by_perm t : Permutation (order_by_timestamp_desc t) t.
Proof.
  induction t as [|r t IH]; simpl; [reflexivity|].
  rewrite insert_desc_perm. now constructor.
Qed.

Lemma insert_desc_sorted r l :
  descending_by_timestamp_text l ->
  descending_by_timestamp_text (insert_desc r l).
Proof.
  unfold descending_by_timestamp_text.
  induction l as [|x l IH]; intros Hs; simpl.
  - repeat constructor.
  - destruct (String.leb (Stored.creationTimestamp x)
                (Stored.creationTimestamp r)) eqn:E.
    + constructor; [exact Hs|]. now constructor.
    + apply Sorted_inv in Hs as [Hs Hhd].
      constructor; [now apply IH|].
      assert (Hxr : String.leb (Stored.creationTimestamp r)
                      (Stored.creationTimestamp x) = true).
      { destruct (String.leb_total (Stored.creationTimestamp x)
                    (Stored.creationTimestamp r)); congruence. }
      destruct l as [|y l]; simpl.
      * now constructor.
      * destruct (String.leb (Stored.creationTimestamp y)
                    (Stored.creationTimestamp r)).
        -- now constructor.
        -- constructor. now apply HdRel_inv in Hhd.
Qed.

Lemma order_by_sorted t :
  descending_by_timestamp_text (order_by_timestamp_desc t).
Proof.
  induction t as [|r t IH]; simpl; [constructor|].
  now apply insert_desc_sorted.
Qed.

Lemma filter_all {A} (p : A -> bool) l :
  Forall (fun x => p x = true) l -> filter p l = l.
Proof.
  induction 1 as [|x l Hx _ IH]; simpl; [reflexivity|].
  now rewrite Hx, IH.
Qed.

Lemma get_api_trades_ok s rows s' :
  get_api_trades s = (TradesOk rows, s') ->
  db s' = db s
  /\ rows = order_by_timestamp_desc
              (filter pnl_is_not_null (Sqlite.rows (db s))).
Proof.
  unfold get_api_trades.
  destruct (next_fault (faults s)) as [[e|] fs]; [discriminate|].
  intros H. injection H as <- <-. split; reflexivity.
Qed.

(** X5: when [/api/trades] answers with rows, these are exactly the stored
    rows whose profit is not null, in descending byte order of the text of
    creationTimestamp (as ORDER BY on a TEXT column gives, which is not the
    order in time when the timestamps differ in format); the store is not
    changed; and the filter that [fetchTrades] applies to the answer
    removes nothing. *)
Theorem api_trades_lists_rows_with_pnl s rows s' :
  get_api_trades s = (TradesOk rows, s') ->
  db s' = db s
  /\ Permutation rows (filter pnl_is_not_null (Sqlite.rows (db s)))
  /\ descending_by_timestamp_text rows
  /\ fetchTrades (TradesOk rows) = mkClient rows None.
Proof.
  intros H. apply get_api_trades_ok in H as [Hdb ->].
  split; [exact Hdb|]. split; [apply order_by_perm|].
  split; [apply order_by_sorted|].
  simpl. rewrite filter_all; [reflexivity|].
  apply (Permutation_Forall (Permutation_sym (order_by_perm _))).
  apply Forall_forall. intros r Hr. now apply filter_In in Hr.
Qed.

Lemma api_trades_lists_rows_with_pnl_witness :
  get_api_trades (fault_free (Sqlite.mkdb [row_a; row_c] None))
  = (TradesOk [row_c; row_a], fault_free (Sqlite.mkdb [row_a; row_c] None))
  /\ Permutation [row_c; row_a] (filter pnl_is_not_null [row_a; row_c])
  /\ descending_by_timestamp_text [row_c; row_a]
  /\ fetchTrades (TradesOk [row_c; row_a]) = mkClient [row_c; row_a] None.
Proof.
  split; [reflexivity|].
  destruct (api_trades_lists_rows_with_pnl
              (fault_free (Sqlite.mkdb [row_a; row_c] None)) [row_c; row_a]
              (fault_free (Sqlite.mkdb [row_a; row_c] None)) eq_refl)
    as (_ & Hp & Hs & Hf).
  repeat split; assumption.
Defined.

(** The order of the listing is that of the timestamps' text, not of the
    instants they name: a trade on the full second, written without
    fraction, is listed before the trade made half a second after it. *)
Lemma timestamp_text_order_is_not_time_order :
  get_api_trades
    (fault_free (Sqlite.mkdb [row_half_later; row_on_second] None))
  = (TradesOk [row_on_second; row_half_later],
     fault_free (Sqlite.mkdb [row_half_later; row_on_second] None))
  /\ Stored.creationTimestamp row_on_second = "2025-06-02T14:30:00Z"
  /\ Stored.creationTimestamp row_half_later = "2025-06-02T14:30:00.500Z".
Proof. repeat split. Qed.

(** ** The dashboard's live list *)

Lemma same_trade_key n t :
  same_trade n t = true <-> client_key t = client_key n.
Proof.
  unfold same_trade, client_key.
  rewrite !andb_true_iff, Z.eqb_eq, !String.eqb_eq.
  split.
  - intros [[-> ->] ->]. reflexivity.
  - intros E. injection E as -> -> ->. auto.
Qed.

Lemma tradeExists_key n l :
  tradeExists n l = true <-> In (client_key n) (map client_key l).
Proof.
  unfold tradeExists. rewrite existsb_exists, in_map_iff.
  split; intros (t & H1 & H2).
  - exists t. split; [now apply same_trade_key|exact H1].
  - exists t. split; [exact H2|now apply same_trade_key].
Qed.

(** X7: the listener for "new-trade" keeps the dashboard's list free of
    duplicates on (broker, orderId, creationTimestamp) and free of trades
    without a profit; it adds at most the new trade, at the head, and the
    same payload delivered again changes nothing. *)
Theorem listener_keeps_list_unique n l :
  NoDup (map client_key l) ->
  Forall (fun t => pnl_is_not_null t = true) l ->
  NoDup (map client_key (newTradeListener n l))
  /\ Forall (fun t => pnl_is_not_null t = true) (newTradeListener n l)
  /\ (newTradeListener n l = l \/ newTradeListener n l = n :: l)
  /\ newTradeListener n (newTradeListener n l) = newTradeListener n l.
Proof.
  intros Hnd Hall. unfold newTradeListener.
  destruct (Stored.profitAndLoss n) as [q|] eqn:P; [|auto].
  destruct (tradeExists n l) eqn:E; [rewrite ?E; auto|].
  assert (E' : tradeExists n (n :: l) = true).
  { apply tradeExists_key. simpl. now left. }
  rewrite E'. repeat split; auto.
  - simpl. constructor; [|exact Hnd].
    intros Hin. apply tradeExists_key in Hin. congruence.
  - constructor; [|exact Hall]. unfold pnl_is_not_null. now rewrite P.
Qed.

Lemma listener_keeps_list_unique_witness :
  NoDup (map client_key [row_a])
  /\ newTradeListener row_c [row_a] = [row_c; row_a]
  /\ newTradeListener row_a [row_a] = [row_a]
  /\ NoDup (map client_key (newTradeListener row_c [row_a])).
Proof.
  assert (Hnd : NoDup (map client_key [row_a]))
    by (constructor; [intros []|constructor]).
  assert (Hall : Forall (fun t => pnl_is_not_null t = true) [row_a])
    by (constructor; [reflexivity|constructor]).
  split; [exact Hnd|]. split; [reflexivity|]. split; [reflexivity|].
  exact (proj1 (listener_keeps_list_unique row_c [row_a] Hnd Hall)).
Defined.

Lemma new_trade_payloads_insert_events ins tail :
  (forall e, In e tail -> match e with EmitNewTrade _ => False | _ => True end) ->
  new_trade_payloads (insert_events ins ++ tail) = ins.
Proof.
  intros Htail. unfold new_trade_payloads, insert_events.
  rewrite flat_map_app.
  assert (Ht : flat_map
                 (fun e => match e with EmitNewTrade r => [r] | _ => [] end)
                 tail = []).
  { induction tail as [|e tl IH]; [reflexivity|]. simpl.
    pose proof (Htail e (or_introl eq_refl)) as He.
    destruct e; try contradiction; simpl; apply IH;
      intros e' He'; apply Htail; now right. }
  rewrite Ht, app_nil_r.
  induction ins as [|r ins IH]; [reflexivity|]. simpl. now rewrite IH.
Qed.

(** Payloads whose keys are new, to the list and to each other, are all
    added. *)
Lemma deliver_fresh ins : forall cl base,
  Permutation cl base ->
  NoDup (map order_key (base ++ ins)) ->
  Forall (fun r => Stored.profitAndLoss r <> None) ins ->
  Permutation (deliver ins cl) (base ++ ins).
Proof.
  induction ins as [|r ins IH]; intros cl base Hp Hnd Hall.
  - simpl. now rewrite app_nil_r.
  - unfold deliver. simpl. fold (deliver ins (newTradeListener r cl)).
    apply Forall_cons_iff in Hall as [Hr Hall].
    assert (Hnew : newTradeListener r cl = r :: cl).
    { unfold newTradeListener.
      destruct (Stored.profitAndLoss r); [|contradiction].
      destruct (tradeExists r cl) eqn:E; [|reflexivity].
      exfalso. apply tradeExists_key in E.
      apply in_map_iff in E as (t & Hk & Hin).
      rewrite map_app in Hnd. simpl in Hnd.
      apply NoDup_remove_2 in Hnd. apply Hnd, in_or_app. left.
      apply in_map_iff. exists t. split.
      - unfold client_key, order_key in *. congruence.
      - now apply (Permutation_in _ Hp). }
    rewrite Hnew.
    replace (base ++ r :: ins) with ((base ++ [r]) ++ ins)
      by now rewrite <- app_assoc.
    apply IH.
    + rewrite Permutation_app_comm. simpl. now constructor.
    + now rewrite <- app_assoc.
    + exact Hall.
Qed.

(** X8: a dashboard whose list holds the stored rows, fed the "new-trade"
    events of a batch that resolved, holds the stored rows again: every row
    the batch inserted is added once and nothing else is. *)
Theorem dashboard_follows_store ts d fs c s' t cl :
  reachable d ->
  logTopstepTradesToDatabase ts (mkState d fs) = (Resolved c, s', t) ->
  Permutation cl (Sqlite.rows d) ->
  Permutation (deliver (new_trade_payloads t) cl) (Sqlite.rows (db s'))
  /\ List.length (deliver (new_trade_payloads t) cl)
     = List.length cl + inserted c.
Proof.
  intros Hr Hlog Hp.
  pose proof (reachable_batch fs ts Hr) as Hreach.
  rewrite Hlog in Hreach. unfold state_of in Hreach. simpl in Hreach.
  destruct (reachable_inv _ Hreach) as [[_ Hnd] _].
  pose proof (reachable_complete _ Hreach) as Hcomp.
  apply log_resolved in Hlog as (ins & -> & Hdb & _ & Hins & _).
  rewrite Hdb in *. simpl in *.
  rewrite new_trade_payloads_insert_events
    by (intros e [<-|[]]; exact I).
  assert (Hperm : Permutation (deliver ins cl) (Sqlite.rows d ++ ins)).
  { apply deliver_fresh; [exact Hp|exact Hnd|].
    apply Forall_app in Hcomp as [_ Hc].
    eapply Forall_impl; [|exact Hc]. now intros r [_ ?]. }
  split; [exact Hperm|].
  rewrite (Permutation_length Hperm), length_app, Hins.
  now rewrite (Permutation_length Hp).
Qed.

Lemma dashboard_follows_store_witness :
  reachable (Sqlite.mkdb [row_a] None)
  /\ deliver
       (new_trade_payloads [SqlInserted row_c; EmitNewTrade row_c; SqlCommitted])
       [row_a]
     = [row_c; row_a]
  /\ Permutation [row_c; row_a] [row_a; row_c].
Proof.
  assert (H : reachable (Sqlite.mkdb [row_a] None))
    by exact (reachable_batch [] [trade_a] reachable_empty).
  split; [exact H|]. split; [reflexivity|].
  exact (proj1 (dashboard_follows_store [trade_c; trade_a]
                  (Sqlite.mkdb [row_a] None) [] (mkCounts 1 1)
                  (fault_free (Sqlite.mkdb [row_a; row_c] None))
                  [SqlInserted row_c; EmitNewTrade row_c; SqlCommitted]
                  [row_a] H eq_refl (Permutation_refl _))).
Defined.

(** * Properties of the start-up *)

(** ** Resolving the account *)

Lemma find_first {A} (f : A -> bool) l a :
  find f l = Some a ->
  exists before after,
    l = before ++ a :: after /\ f a = true
    /\ Forall (fun x => f x = false) before.
Proof.
  induction l as [|x l IH]; [discriminate|]. simpl.
  destruct (f x) eqn:E.
  - intros H. injection H as <-. exists [], l. repeat split; auto.
  - intros H. destruct (IH H) as (before & after & -> & Ha & Hb).
    exists (x :: before), after. repeat split; auto.
Qed.

(** X9: the start-up and the account endpoint resolve the same account for
    the same configured name: the first account of the remote list, in list
    order, that may trade and whose upper-cased name starts with the
    upper-cased configured name.  An account that may not trade is never
    chosen. *)
Theorem account_resolution_agrees rt accountName l :
  find (tradable_at_startup rt (Some accountName)) l
  = find (tradable_at_endpoint rt accountName) l
  /\ forall a,
       find (tradable_at_endpoint rt accountName) l = Some a ->
       TopstepAccount.canTrade a = true
       /\ startsWith (toUpperCase rt (TopstepAccount.name a))
            (toUpperCase rt accountName) = true
       /\ exists before after,
            l = before ++ a :: after
            /\ Forall (fun x =>
                         TopstepAccount.canTrade x = false
                         \/ startsWith (toUpperCase rt (TopstepAccount.name x))
                              (toUpperCase rt accountName) = false) before.
Proof.
  split.
  - induction l as [|x l IH]; [reflexivity|]. simpl. rewrite IH.
    assert (E : tradable_at_startup rt (Some accountName) x
                = tradable_at_endpoint rt accountName x)
      by apply andb_comm.
    now rewrite E.
  - intros a H. apply find_first in H as (before & after & -> & Ha & Hb).
    unfold tradable_at_endpoint in Ha. apply andb_true_iff in Ha as [Hs Hc].
    repeat split; auto. exists before, after. split; [reflexivity|].
    eapply Forall_impl; [|exact Hb].
    intros x Hx. unfold tradable_at_endpoint in Hx.
    apply andb_false_iff in Hx. tauto.
Qed.

(** X10: the account endpoint stores the id of the account it answers
    with, and only then changes the stored account id; it always records
    the requested name, and never touches credentials, session token or
    the backfill flag. *)
Theorem account_endpoint_stores_the_answer rt search accountName p :
  let '(r, p') := account_endpoint rt search accountName p in
  ACCOUNT_NAME p' = Some accountName
  /\ initialSyncDone p' = initialSyncDone p
  /\ TOPSTEP_USERNAME (env p') = TOPSTEP_USERNAME (env p)
  /\ TOPSTEP_API_KEY (env p') = TOPSTEP_API_KEY (env p)
  /\ TOPSTEP_API_SESSION_TOKEN (env p') = TOPSTEP_API_SESSION_TOKEN (env p)
  /\ match r with
     | AccountFound a =>
         TOPSTEP_ACCOUNT_ID (env p') = Some (TopstepAccount.id a)
         /\ TopstepAccount.canTrade a = true
         /\ truthy (TOPSTEP_API_SESSION_TOKEN (env p)) = true
     | _ => TOPSTEP_ACCOUNT_ID (env p') = TOPSTEP_ACCOUNT_ID (env p)
     end.
Proof.
  unfold account_endpoint. simpl.
  destruct (truthy (TOPSTEP_API_SESSION_TOKEN (env p))) eqn:Ht; simpl;
    [|repeat split].
  destruct (search _) as [data|msg]; [|repeat split].
  destruct (accounts data) as [l|]; [|repeat split].
  destruct (find _ l) as [a|] eqn:Hf; [|repeat split].
  simpl. repeat split.
  apply find_some in Hf as [_ Hf]. unfold tradable_at_endpoint in Hf.
  now apply andb_true_iff in Hf as [_ ?].
Qed.

Lemma account_resolution_agrees_witness :
  find (tradable_at_startup sample_runtime (Some "50ktc")) sample_accounts
  = Some (TopstepAccount.mk "7" "50ktc-v2-88" true)
  /\ find (tradable_at_startup sample_runtime (Some "50ktc")) sample_accounts
     = find (tradable_at_endpoint sample_runtime "50ktc") sample_accounts.
Proof.
  split; [reflexivity|].
  exact (proj1 (account_resolution_agrees sample_runtime "50ktc"
                  sample_accounts)).
Defined.

(** ** The backfill *)

(** X11: the start-up backfill is a window sync.  Without a session token
    or an account id it does nothing and leaves [initialSyncDone] as it
    was; with both it sets [initialSyncDone] whatever the remote call and
    the storage do, and when the account id parses to a number it changes
    the store and emits the events exactly as [syncWindow] does for that
    account and window. *)
Theorem backfill_is_a_window_sync rt search st en p s :
  (truthy (TOPSTEP_API_SESSION_TOKEN (env p)) = false
   \/ truthy (TOPSTEP_ACCOUNT_ID (env p)) = false ->
   performInitialTradeSync rt search st en p s = (p, s, []))
  /\ (truthy (TOPSTEP_API_SESSION_TOKEN (env p)) = true ->
      truthy (TOPSTEP_ACCOUNT_ID (env p)) = true ->
      fst (fst (performInitialTradeSync rt search st en p s)) = sync_done p
      /\ forall accountId,
           parseInt rt (env_value (TOPSTEP_ACCOUNT_ID (env p)))
           = Some accountId ->
           state_of (performInitialTradeSync rt search st en p s)
           = state_of (syncWindow (env p) (with_account search) accountId
                         st en s)
           /\ trace_of (performInitialTradeSync rt search st en p s)
              = trace_of (syncWindow (env p) (with_account search) accountId
                            st en s)).
Proof.
  unfold performInitialTradeSync, syncWindow, with_account.
  split.
  - intros [H|H]; rewrite H; [reflexivity|now rewrite orb_true_r].
  - intros Ht Ha. rewrite Ht, Ha. simpl.
    destruct (TOPSTEP_API_SESSION_TOKEN (env p)) as [tok|] eqn:Etok;
      [|discriminate].
    simpl in Ht. apply negb_true_iff in Ht. rewrite Ht. simpl.
    split.
    + destruct (search tok _ st en) as [data|msg]; [|reflexivity].
      destruct (trades data) as [ts|]; [|reflexivity].
      now destruct (logTopstepTradesToDatabase ts s) as [[o s'] t].
    + intros accountId ->.
      destruct (search tok (Some accountId) st en) as [data|msg];
        [|split; reflexivity].
      destruct (trades data) as [ts|]; [|split; reflexivity].
      destruct (logTopstepTradesToDatabase ts s) as [[[c|e] s'] t];
        split; reflexivity.
Qed.

Lemma backfill_is_a_window_sync_witness :
  performInitialTradeSync sample_runtime (fun _ _ _ _ => sample_search "" 0%Z "" "")
    "2025-06-01T00:00:00Z" "2025-06-02T15:00:00Z" sample_process
    (fault_free Sqlite.empty)
  = (sync_done sample_process, fault_free (Sqlite.mkdb [row_a; row_c] None),
     insert_events [row_a; row_c] ++ [SqlCommitted])
  /\ state_of
       (performInitialTradeSync sample_runtime
          (fun _ _ _ _ => sample_search "" 0%Z "" "")
          "2025-06-01T00:00:00Z" "2025-06-02T15:00:00Z" sample_process
          (fault_free Sqlite.empty))
     = state_of
         (syncWindow sample_env
            (with_account (fun _ _ _ _ => sample_search "" 0%Z "" "")) 7
            "2025-06-01T00:00:00Z" "2025-06-02T15:00:00Z"
            (fault_free Sqlite.empty)).
Proof.
  split; [reflexivity|].
  destruct (backfill_is_a_window_sync sample_runtime
              (fun _ _ _ _ => sample_search "" 0%Z "" "")
              "2025-06-01T00:00:00Z" "2025-06-02T15:00:00Z" sample_process
              (fault_free Sqlite.empty)) as [_ H].
  destruct (H eq_refl eq_refl) as [_ H'].
  exact (proj1 (H' 7%Z eq_refl)).
Defined.

(** ** The start-up sequence *)

(** X12: whatever the remote calls and the storage do, the start-up never
    changes the credentials or the configured account name; when it leaves
    [initialSyncDone] newly set, a session token and an account id are in
    place; and it touches the store or emits events only when it sets that
    flag. *)
Theorem startup_sets_flag_only_with_session rt login accountSearch search
    st en p s :
  let '(p', s', t) :=
    initializeTopstepSessionAndAccount rt login accountSearch search st en
      p s in
  TOPSTEP_USERNAME (env p') = TOPSTEP_USERNAME (env p)
  /\ TOPSTEP_API_KEY (env p') = TOPSTEP_API_KEY (env p)
  /\ ACCOUNT_NAME p' = ACCOUNT_NAME p
  /\ (initialSyncDone p' = true ->
      initialSyncDone p = true
      \/ (truthy (TOPSTEP_API_SESSION_TOKEN (env p')) = true
          /\ truthy (TOPSTEP_ACCOUNT_ID (env p')) = true))
  /\ (initialSyncDone p' = false -> s' = s /\ t = []).
Proof.
  unfold initializeTopstepSessionAndAccount.
  destruct (negb (truthy (TOPSTEP_USERNAME (env p)))
            || negb (truthy (TOPSTEP_API_KEY (env p)))).
  { repeat split; auto. }
  destruct (login _ _) as [tokenData|msg]; [|repeat split; auto].
  destruct (accountSearch _) as [data|msg].
  2:{ simpl. repeat split; auto. }
  match goal with
  | |- context [performInitialTradeSync rt search st en ?x s] =>
      remember x as q eqn:Eq
  end.
  assert (Hq : TOPSTEP_USERNAME (env q) = TOPSTEP_USERNAME (env p)
               /\ TOPSTEP_API_KEY (env q) = TOPSTEP_API_KEY (env p)
               /\ ACCOUNT_NAME q = ACCOUNT_NAME p
               /\ initialSyncDone q = initialSyncDone p).
  { subst q. destruct (accounts data) as [l|]; [|repeat split].
    simpl. destruct (find _ l); repeat split. }
  clear Eq. destruct Hq as (Hu & Hk & Hn & Hd).
  unfold performInitialTradeSync.
  destruct (truthy (TOPSTEP_API_SESSION_TOKEN (env q))) eqn:Ht;
    destruct (truthy (TOPSTEP_ACCOUNT_ID (env q))) eqn:Ha; simpl;
    try (repeat split; auto; rewrite Hd; auto; fail).
  destruct (search _ _ st en) as [d|m].
  - destruct (trades d) as [ts|].
    + destruct (logTopstepTradesToDatabase ts s) as [[o s'] t]. simpl.
      repeat split; auto; discriminate.
    + simpl. repeat split; auto; discriminate.
  - simpl. repeat split; auto; discriminate.
Qed.

(** ** The window sync and the store *)

(** X13: a window sync that starts with no transaction open never removes
    or changes a stored row.  It appends rows only when the remote search
    answered with a list of trades, and then only rows built from that
    list; without a session token it runs no statement and emits no
    event. *)
Theorem sync_only_appends env0 search acct st en s :
  Sqlite.snapshot (db s) = None ->
  exists kept,
    rows_after (syncWindow env0 search acct st en s)
    = Sqlite.rows (db s) ++ kept
    /\ (kept = []
        \/ exists tok data ts,
             TOPSTEP_API_SESSION_TOKEN env0 = Some tok
             /\ search tok acct st en = AxiosResponse data
             /\ trades data = Some ts
             /\ Forall (built_from ts) kept)
    /\ (truthy (TOPSTEP_API_SESSION_TOKEN env0) = false ->
        syncWindow env0 search acct st en s = (MissingToken, s, [])).
Proof.
  intros Hsnap. unfold syncWindow.
  destruct (TOPSTEP_API_SESSION_TOKEN env0) as [tok|] eqn:Etok.
  2:{ exists []. rewrite app_nil_r. repeat split; auto. }
  simpl. destruct (String.eqb tok "") eqn:Ee.
  { exists []. rewrite app_nil_r. repeat split; auto. }
  destruct (search tok acct st en) as [data|msg] eqn:Es.
  2:{ exists []. rewrite app_nil_r. repeat split; auto. discriminate. }
  destruct (trades data) as [ts|] eqn:Et.
  2:{ exists []. rewrite app_nil_r. repeat split; auto. discriminate. }
  destruct (log_appends ts s Hsnap) as (kept & Hrows & Hall & _).
  exists kept. split; [|split; [|discriminate]].
  - destruct (logTopstepTradesToDatabase ts s) as [[[c|e] s'] t];
      exact Hrows.
  - right. exists tok, data, ts. auto.
Qed.

Lemma sync_only_appends_witness :
  exists kept,
    rows_after
      (syncWindow sample_env sample_search 7 "2025-06-01T00:00:00Z"
         "2025-06-02T15:00:00Z" (fault_free (Sqlite.mkdb [row_a] None)))
    = [row_a] ++ kept
    /\ (kept = []
        \/ exists tok data ts,
             TOPSTEP_API_SESSION_TOKEN sample_env = Some tok
             /\ sample_search tok 7%Z "2025-06-01T00:00:00Z"
                  "2025-06-02T15:00:00Z" = AxiosResponse data
             /\ trades data = Some ts
             /\ Forall (built_from ts) kept)
    /\ (truthy (TOPSTEP_API_SESSION_TOKEN sample_env) = false ->
        syncWindow sample_env sample_search 7 "2025-06-01T00:00:00Z"
          "2025-06-02T15:00:00Z" (fault_free (Sqlite.mkdb [row_a] None))
        = (MissingToken, fault_free (Sqlite.mkdb [row_a] None), [])).
Proof.
  apply (sync_only_appends sample_env sample_search 7%Z
           "2025-06-01T00:00:00Z" "2025-06-02T15:00:00Z"
           (fault_free (Sqlite.mkdb [row_a] None))).
  reflexivity.
Defined.

(** * Properties of the order handlers *)



(** X15: the TradingView webhook posts an order to the remote only for an
    alert that carries the key, names the broker topstep in any letter
    case, and has a contract, a side, a quantity other than zero and a
    price other than zero.  The order then is a type 2 order for the
    alert's contract and quantity, buying (side 0) exactly when the alert's
    side is the text "buy" and selling (side 1) for every other text; the
    alert's price is not passed on.  Any other alert leaves the store as it
    was. *)
Theorem webhook_orders_only_valid_alerts {R} rt (place : PlaceOrder R)
    search st en e alert s :
  let h := tradingview_webhook rt place search st en e alert s in
  (forall o, In o (orders_sent h) ->
     valid_topstep_alert rt alert = true
     /\ orders_sent h = [o]
     /\ RemoteOrder.contractId o = env_value (Alert.contractId alert)
     /\ Some (RemoteOrder.size o) = Alert.quantity alert
     /\ RemoteOrder.type o = 2%Z
     /\ (Alert.side alert = Some "buy" -> RemoteOrder.side o = 0%Z)
     /\ (Alert.side alert <> Some "buy" -> RemoteOrder.side o = 1%Z)
     /\ RemoteOrder.limitPrice o = None)
  /\ (valid_topstep_alert rt alert = false ->
      orders_sent h = [] /\ store_after h = s /\ events_emitted h = []
      /\ forall data, answer h <> WebhookOrdered data).
Proof.
  cbv zeta. unfold tradingview_webhook, valid_topstep_alert.
  destruct (String.eqb (Alert.key alert) "XCtCCAEw2G8Dg9"); simpl;
    [|split; [intros o []|repeat split; discriminate]].
  destruct (truthy (Alert.broker alert)); simpl;
    [|split; [intros o []|repeat split; discriminate]].
  destruct (String.eqb (toLowerCase rt _) "topstep"); simpl.
  2:{ destruct (String.eqb _ "kraken"); [|destruct (String.eqb _ "ibkr")];
        (split; [intros o []|repeat split; discriminate]). }
  destruct (truthy (Alert.contractId alert)); simpl;
    [|split; [intros o []|repeat split; discriminate]].
  destruct (truthy (Alert.side alert)) eqn:Hside; simpl;
    [|split; [intros o []|repeat split; discriminate]].
  destruct (Alert.quantity alert) as [q|] eqn:Hq; simpl;
    [|split; [intros o []|repeat split; discriminate]].
  destruct (negb (Qeq_bool q 0)); simpl;
    [|split; [intros o []|repeat split; discriminate]].
  destruct (truthy_number (Alert.price alert)); simpl;
    [|split; [intros o []|repeat split; discriminate]].
  split; [|discriminate].
  assert (Hsent : forall o,
            In o (orders_sent
                    (order_endpoint rt place search st en e
                       (OrderRequest.mk (env_value (Alert.contractId alert)) q
                          (if String.eqb (env_value (Alert.side alert)) "buy"
                           then 0%Z else 1%Z) 2%Z) s)) ->
            orders_sent
              (order_endpoint rt place search st en e
                 (OrderRequest.mk (env_value (Alert.contractId alert)) q
                    (if String.eqb (env_value (Alert.side alert)) "buy"
                     then 0%Z else 1%Z) 2%Z) s) = [o]
            /\ RemoteOrder.contractId o = env_value (Alert.contractId alert)
            /\ RemoteOrder.size o = q
            /\ RemoteOrder.type o = 2%Z
            /\ RemoteOrder.side o
               = (if String.eqb (env_value (Alert.side alert)) "buy"
                  then 0%Z else 1%Z)
            /\ RemoteOrder.limitPrice o = None).
  { unfold order_endpoint.
    destruct (negb _ || negb _); [intros o []|].
    destruct (place _ _) as [data|msg].
    - destruct (sync_after_order rt search st en e s) as [s' t]. simpl.
      intros o [<-|[]]. repeat split.
    - simpl. intros o [<-|[]]. repeat split. }
  intros o Ho.
  assert (Ho' : In o (orders_sent
                        (order_endpoint rt place search st en e
                           (OrderRequest.mk
                              (env_value (Alert.contractId alert)) q
                              (if String.eqb (env_value (Alert.side alert))
                                    "buy"
                               then 0%Z else 1%Z) 2%Z) s))).
  { destruct (answer _) in Ho; exact Ho. }
  destruct (Hsent o Ho') as (Hone & Hc & Hsz & Hty & Hsd & Hlim).
  split; [reflexivity|]. split.
  { destruct (answer _); exact Hone. }
  repeat split; auto.
  - now rewrite Hsz.
  - intros Hb. rewrite Hsd, Hb. reflexivity.
  - intros Hb. rewrite Hsd.
    destruct (String.eqb (env_value (Alert.side alert)) "buy") eqn:E;
      [|reflexivity].
    apply String.eqb_eq in E.
    destruct (Alert.side alert) as [sd|]; [|discriminate].
    simpl in E. now subst sd.
Qed.

Lemma webhook_orders_only_valid_alerts_witness :
  valid_topstep_alert sample_runtime sample_alert = true
  /\ orders_sent
       (tradingview_webhook sample_runtime sample_place sample_search_parsed
          "2025-06-02T14:59:00Z" "2025-06-02T15:00:00Z" sample_env
          sample_alert (fault_free Sqlite.empty))
     = [RemoteOrder.mk (Some "7") "CON.F.US.MNQ.M25" 2 1 (2 # 1)
          None None None None None]
  /\ answer
       (tradingview_webhook sample_runtime sample_place sample_search_parsed
          "2025-06-02T14:59:00Z" "2025-06-02T15:00:00Z" sample_env
          sample_alert (fault_free Sqlite.empty))
     = WebhookOrdered 9001%Z.
Proof.
  assert (Hsent :
    orders_sent
      (tradingview_webhook sample_runtime sample_place sample_search_parsed
         "2025-06-02T14:59:00Z" "2025-06-02T15:00:00Z" sample_env
         sample_alert (fault_free Sqlite.empty))
    = [RemoteOrder.mk (Some "7") "CON.F.US.MNQ.M25" 2 1 (2 # 1)
         None None None None None]) by reflexivity.
  split; [|split; [exact Hsent|reflexivity]].
  refine (proj1 (proj1 (webhook_orders_only_valid_alerts sample_runtime
                          sample_place sample_search_parsed
                          "2025-06-02T14:59:00Z" "2025-06-02T15:00:00Z"
                          sample_env sample_alert (fault_free Sqlite.empty))
                   (RemoteOrder.mk (Some "7") "CON.F.US.MNQ.M25" 2 1 (2 # 1)
                      None None None None None) _)).
  rewrite Hsent. left. reflexivity.
Defined.

(** * Properties of the performance summary *)

Lemma is_win_spec t : is_win t = true <-> (0 < net_pnl t)%Q.
Proof.
  unfold is_win. rewrite Qlt_alt.
  destruct (0 ?= net_pnl t)%Q; split; congruence.
Qed.

Lemma is_loss_spec t : is_loss t = true <-> (net_pnl t < 0)%Q.
Proof.
  unfold is_loss. rewrite Qlt_alt.
  destruct (net_pnl t ?= 0)%Q; split; congruence.
Qed.

Lemma fold_sum_ge (f : Stored.trade -> Q) l : forall a,
  Forall (fun t => (0 <= f t)%Q) l ->
  (a <= fold_left (fun sum t => sum + f t) l a)%Q.
Proof.
  induction l as [|x l IH]; intros a Hall; simpl; [apply Qle_refl|].
  apply Forall_cons_iff in Hall as [Hx Hall].
  eapply Qle_trans; [|apply IH; exact Hall]. lra.
Qed.

Lemma reduce_sum_nonneg f l :
  Forall (fun t => (0 <= f t)%Q) l -> (0 <= reduce_sum f l)%Q.
Proof. apply fold_sum_ge. Qed.

Lemma reduce_sum_pos f l :
  Forall (fun t => (0 < f t)%Q) l -> l <> [] -> (0 < reduce_sum f l)%Q.
Proof.
  intros Hall Hne. destruct l as [|x l]; [congruence|].
  apply Forall_cons_iff in Hall as [Hx Hall].
  unfold reduce_sum. simpl.
  eapply Qlt_le_trans; [|apply fold_sum_ge].
  - lra.
  - eapply Forall_impl; [|exact Hall]. intros t Ht. now apply Qlt_le_weak.
Qed.

Lemma filter_length_le {A} (p : A -> bool) l :
  List.length (filter p l) <= List.length l.
Proof.
  induction l as [|x l IH]; simpl; [lia|]. destruct (p x); simpl; lia.
Qed.

(** X16: the performance summary.  With no trade that has a profit all
    three values are 0.  The win rate lies between 0 and 100.  The profit
    factor is never negative, and it is infinite exactly when some trade
    considered nets a gain after fees and none nets a loss. *)
Theorem trade_metrics_ranges rt trades selectedBroker :
  let considered := tradesWithPnL rt trades selectedBroker in
  let m := tradeMetrics rt trades selectedBroker in
  (considered = [] -> m = mkMetrics 0 0 (Finite 0))
  /\ (0 <= winPercentage m <= 100)%Q
  /\ (forall q, profitFactor m = Finite q -> (0 <= q)%Q)
  /\ (profitFactor m = Infinite
      <-> (exists t, In t considered /\ (0 < net_pnl t)%Q)
          /\ forall t, In t considered -> ~ (net_pnl t < 0)%Q).
Proof.
  cbv zeta. unfold tradeMetrics.
  destruct (tradesWithPnL rt trades selectedBroker) as [|x l] eqn:E.
  { simpl. split; [reflexivity|]. split; [lra|].
    split; [intros q H; injection H as <-; lra|].
    split; [discriminate|]. now intros [(t & [] & _) _]. }
  set (w := x :: l) in *.
  assert (Hprofits : (0 <= reduce_sum net_pnl (filter is_win w))%Q).
  { apply reduce_sum_nonneg, Forall_forall. intros t Ht.
    apply filter_In in Ht as [_ Ht]. apply is_win_spec in Ht. lra. }
  assert (Hwin : (0 < reduce_sum net_pnl (filter is_win w))%Q
                 <-> exists t, In t w /\ (0 < net_pnl t)%Q).
  { split.
    - intros Hpos. destruct (filter is_win w) as [|t f] eqn:Ef.
      + unfold reduce_sum in Hpos. simpl in Hpos. lra.
      + assert (Ht : In t (filter is_win w)) by (rewrite Ef; now left).
        apply filter_In in Ht as [Hin Ht]. exists t.
        split; [exact Hin|now apply is_win_spec].
    - intros (t & Hin & Ht). apply reduce_sum_pos.
      + apply Forall_forall. intros u Hu.
        apply filter_In in Hu as [_ Hu]. now apply is_win_spec.
      + intros Ef.
        assert (Hf : In t (filter is_win w))
          by (apply filter_In; split; [exact Hin|now apply is_win_spec]).
        rewrite Ef in Hf. destruct Hf. }
  assert (Hloss : (0 < reduce_sum (fun t => Qabs (net_pnl t))
                         (filter is_loss w))%Q
                  <-> exists t, In t w /\ (net_pnl t < 0)%Q).
  { split.
    - intros Hpos. destruct (filter is_loss w) as [|t f] eqn:Ef.
      + unfold reduce_sum in Hpos. simpl in Hpos. lra.
      + assert (Ht : In t (filter is_loss w)) by (rewrite Ef; now left).
        apply filter_In in Ht as [Hin Ht]. exists t.
        split; [exact Hin|now apply is_loss_spec].
    - intros (t & Hin & Ht). apply reduce_sum_pos.
      + apply Forall_forall. intros u Hu.
        apply filter_In in Hu as [_ Hu]. apply is_loss_spec in Hu.
        rewrite Qabs_neg by lra. lra.
      + intros Ef.
        assert (Hf : In t (filter is_loss w))
          by (apply filter_In; split; [exact Hin|now apply is_loss_spec]).
        rewrite Ef in Hf. destruct Hf. }
  cbn [winPercentage profitFactor]. split; [discriminate|]. split; [|split].
  - assert (Hn : (0 < of_length w)%Q).
    { unfold of_length, w. simpl List.length.
      change 0%Q with (inject_Z 0). rewrite <- Zlt_Qlt. lia. }
    assert (Hk : (0 <= of_length (filter is_win w) <= of_length w)%Q).
    { unfold of_length. change 0%Q with (inject_Z 0).
      rewrite <- !Zle_Qle.
      pose proof (filter_length_le is_win w). lia. }
    assert (Hr : (0 <= of_length (filter is_win w) / of_length w <= 1)%Q).
    { split.
      - apply Qle_shift_div_l; [exact Hn|]. lra.
      - apply Qle_shift_div_r; [exact Hn|]. lra. }
    set (r := (of_length (filter is_win w) / of_length w)%Q) in *. lra.
  - intros q.
    destruct (0 ?= reduce_sum (fun t => Qabs (net_pnl t)) (filter is_loss w))%Q
      eqn:El.
    + destruct (0 ?= reduce_sum net_pnl (filter is_win w))%Q;
        intros H; try discriminate; injection H as <-; lra.
    + intros H. injection H as <-. apply Qlt_alt in El.
      apply Qle_shift_div_l; [exact El|].
      rewrite Qmult_0_l. exact Hprofits.
    + destruct (0 ?= reduce_sum net_pnl (filter is_win w))%Q;
        intros H; try discriminate; injection H as <-; lra.
  - rewrite <- Hwin.
    assert (Hnl : (forall t, In t w -> ~ (net_pnl t < 0)%Q)
                  <-> ~ (0 < reduce_sum (fun t => Qabs (net_pnl t))
                               (filter is_loss w))%Q).
    { rewrite Hloss. split.
      - intros Hno (t & Hin & Ht). exact (Hno t Hin Ht).
      - intros Hno t Hin Ht. apply Hno. now exists t. }
    rewrite Hnl, !Qlt_alt.
    destruct (0 ?= reduce_sum (fun t => Qabs (net_pnl t)) (filter is_loss w))%Q;
      destruct (0 ?= reduce_sum net_pnl (filter is_win w))%Q;
      split; try discriminate; try tauto; try (intros [? ?]; congruence);
      intros _; split; congruence.
Qed.

Lemma trade_metrics_ranges_witness :
  tradesWithPnL sample_runtime [row_a; row_c; row_a_kraken] "TopStep"
  = [row_a; row_c]
  /\ (0 <= winPercentage
             (tradeMetrics sample_runtime [row_a; row_c; row_a_kraken]
                "TopStep") <= 100)%Q
  /\ (winPercentage
        (tradeMetrics sample_runtime [row_a; row_c; row_a_kraken] "TopStep")
      == 50)%Q.
Proof.
  split; [reflexivity|]. split; [|reflexivity].
  exact (proj1 (proj2 (trade_metrics_ranges sample_runtime
                         [row_a; row_c; row_a_kraken] "TopStep"))).
Defined.

(** * Properties of the session token handlers *)

(** X17: the session token endpoint and the scheduled refresh leave the
    same environment.  Neither changes user name, API key or account id;
    the session token is replaced exactly when the credentials are set and
    the remote login answers, and then by the token of that answer. *)
Theorem token_handlers_agree login e :
  snd (session_token_endpoint login e)
  = snd (fst (scheduledTokenRefresh login e))
  /\ TOPSTEP_USERNAME (snd (session_token_endpoint login e))
     = TOPSTEP_USERNAME e
  /\ TOPSTEP_API_KEY (snd (session_token_endpoint login e))
     = TOPSTEP_API_KEY e
  /\ TOPSTEP_ACCOUNT_ID (snd (session_token_endpoint login e))
     = TOPSTEP_ACCOUNT_ID e
  /\ (forall data,
        fst (session_token_endpoint login e) = SessionIssued data ->
        truthy (TOPSTEP_USERNAME e) = true
        /\ truthy (TOPSTEP_API_KEY e) = true
        /\ login (env_value (TOPSTEP_USERNAME e))
             (env_value (TOPSTEP_API_KEY e)) = AxiosResponse data
        /\ TOPSTEP_API_SESSION_TOKEN (snd (session_token_endpoint login e))
           = Some (token data))
  /\ ((forall data, fst (session_token_endpoint login e) <> SessionIssued data)
      -> snd (session_token_endpoint login e) = e).
Proof.
  unfold session_token_endpoint, scheduledTokenRefresh, refresh_try.
  destruct (truthy (TOPSTEP_USERNAME e)) eqn:Hu;
    destruct (truthy (TOPSTEP_API_KEY e)) eqn:Hk; simpl;
    try (repeat split; auto; discriminate).
  destruct (login _ _) as [data|msg] eqn:Hl; simpl.
  - do 4 (split; [reflexivity|]). split.
    + intros d E. injection E as <-. auto.
    + intros Hno. now destruct (Hno data).
  - repeat split; auto; discriminate.
Qed.

Lemma token_handlers_agree_witness :
  session_token_endpoint login_up sample_env
  = (SessionIssued (mkLogin "session-2"),
     mkEnv (Some "trader") (Some "api-key") (Some "session-2") (Some "7"))
  /\ snd (session_token_endpoint login_up sample_env)
     = snd (fst (scheduledTokenRefresh login_up sample_env))
  /\ snd (session_token_endpoint login_down sample_env) = sample_env.
Proof.
  split; [reflexivity|]. split.
  - exact (proj1 (token_handlers_agree login_up sample_env)).
  - refine (proj2 (proj2 (proj2 (proj2 (proj2
             (token_handlers_agree login_down sample_env))))) _).
    intros data. discriminate.
Defined.

(** * The store and its lookups *)

Lemma select_count_at_most_one trade t :
  table_inv t ->
  List.length
    (filter (Sqlite.where_clause "topstep" (Raw.orderId trade)
               (Raw.creationTimestamp trade)) t) <= 1.
Proof.
  intros [_ Hnd]. induction t as [|r t IH]; simpl; [lia|].
  simpl in Hnd. apply NoDup_cons_iff in Hnd as [Hr Hnd].
  destruct (Sqlite.where_clause _ _ _ r) eqn:E; [|now apply IH].
  apply where_clause_spec in E as [_ Ek].
  assert (Hz : filter (Sqlite.where_clause "topstep" (Raw.orderId trade)
                         (Raw.creationTimestamp trade)) t = []).
  { destruct (filter _ t) as [|x f] eqn:Ef; [reflexivity|].
    assert (Hx : In x (filter (Sqlite.where_clause "topstep"
                                 (Raw.orderId trade)
                                 (Raw.creationTimestamp trade)) t))
      by (rewrite Ef; now left).
    apply filter_In in Hx as [Hin Hx].
    apply where_clause_spec in Hx as [_ Hx].
    exfalso. apply Hr. apply in_map_iff. exists x.
    split; [congruence|exact Hin]. }
  rewrite Hz. simpl. lia.
Qed.

(** X18: insert and look-up.  After a batch that resolved, from a store
    that batch calls built, the duplicate check of the loop finds every
    record of the batch that has a profit exactly once. *)
Theorem stored_record_is_found_once ts d fs c s' t trade :
  reachable d ->
  logTopstepTradesToDatabase ts (mkState d fs) = (Resolved c, s', t) ->
  In trade ts -> has_pnl trade = true ->
  Sqlite.select_count (db s') "topstep" (Raw.orderId trade)
    (Raw.creationTimestamp trade) = 1.
Proof.
  intros Hr Hlog Hin Hp.
  pose proof (reachable_batch fs ts Hr) as Hreach.
  rewrite Hlog in Hreach. unfold state_of in Hreach. simpl in Hreach.
  destruct (reachable_inv _ Hreach) as [Hinv _].
  apply log_resolved in Hlog as (_ & _ & _ & _ & _ & _ & Hcov).
  pose proof (Hcov trade Hin Hp) as Hon.
  pose proof (select_count_at_most_one trade _ Hinv) as Hle.
  pose proof (count_zero_on_file trade (db s')) as Hz.
  rewrite Hon in Hz. simpl in Hz. apply Nat.eqb_neq in Hz.
  unfold Sqlite.select_count in *. lia.
Qed.

Lemma stored_record_is_found_once_witness :
  reachable (Sqlite.mkdb [row_a] None)
  /\ Sqlite.select_count (Sqlite.mkdb [row_a; row_c] None) "topstep"
       (Raw.orderId trade_a) (Raw.creationTimestamp trade_a) = 1.
Proof.
  assert (H : reachable (Sqlite.mkdb [row_a] None))
    by exact (reachable_batch [] [trade_a] reachable_empty).
  split; [exact H|].
  exact (stored_record_is_found_once [trade_c; trade_a]
           (Sqlite.mkdb [row_a] None) [] (mkCounts 1 1)
           (fault_free (Sqlite.mkdb [row_a; row_c] None))
           [SqlInserted row_c; EmitNewTrade row_c; SqlCommitted] trade_a
           H eq_refl (or_intror (or_introl eq_refl)) eq_refl).
Defined.

(** X19: a batch that is rolled back leaves the dashboard ahead of the
    store.  A dashboard whose list held the stored rows has, after the
    events of such a batch, every row the batch had inserted in its list,
    while the store holds none of them. *)
Theorem dashboard_keeps_rolled_back_rows ts d fs k e s' t cl :
  reachable d ->
  Sqlite.snapshot d = None ->
  logTopstepTradesToDatabase ts (mkState d fs) = (Rejected (k, e), s', t) ->
  k <> COMMIT ->
  Permutation cl (Sqlite.rows d) ->
  Sqlite.rows (db s') = Sqlite.rows d
  /\ Permutation (deliver (new_trade_payloads t) cl)
       (Sqlite.rows (db s') ++ new_trade_payloads t)
  /\ forall r, In r (new_trade_payloads t) ->
       In r (deliver (new_trade_payloads t) cl)
       /\ ~ In r (Sqlite.rows (db s')).
Proof.
  intros Hr Hsnap Hlog Hk Hp.
  destruct (reachable_inv d Hr) as [Hinv Hcons].
  destruct (log_rolled_back ts (mkState d fs) k e s' t Hcons Hlog Hk)
    as (ins & -> & Hdb & Hfresh).
  assert (Hbase : transaction_base d = Sqlite.rows d)
    by (unfold transaction_base; now rewrite Hsnap).
  simpl in Hdb, Hfresh. rewrite Hbase in *.
  rewrite new_trade_payloads_insert_events by (intros x [<-|[]]; exact I).
  rewrite Hdb. simpl.
  rewrite log_unfold in Hlog. simpl in Hlog.
  destruct (process_trades ts _ _) as [[[c1|e1] s1] t1] eqn:Hproc.
  { destruct (next_fault (faults s1)) as [[e2|] fs2]; [|discriminate].
    injection Hlog as <- _ _ _. now destruct Hk. }
  injection Hlog as _ _ Ht. apply app_inv_tail in Ht. subst t1.
  assert (Hinv1 : table_inv (Sqlite.rows (db s1))).
  { apply (process_inv _ _ _ _ _ _) with (2 := Hproc).
    simpl. now rewrite begun_rows. }
  pose proof (process_spec _ _ _ _ _ _ Hproc)
    as (ins' & Hev & Hrows & _ & Hall & _).
  simpl in Hrows. rewrite begun_rows in Hrows.
  assert (ins' = ins).
  { assert (H1 : new_trade_payloads (insert_events ins' ++ []) = ins')
      by (apply new_trade_payloads_insert_events; intros x []).
    assert (H2 : new_trade_payloads (insert_events ins ++ []) = ins)
      by (apply new_trade_payloads_insert_events; intros x []).
    rewrite <- H1, <- H2, Hev. reflexivity. }
  subst ins'. rewrite Hrows in Hinv1.
  assert (Hperm : Permutation (deliver ins cl) (Sqlite.rows d ++ ins)).
  { apply deliver_fresh; [exact Hp|apply Hinv1|].
    eapply Forall_impl; [|exact Hall].
    intros r (trade & pnl & _ & _ & ->). discriminate. }
  split; [reflexivity|]. split; [exact Hperm|].
  intros r Hin. split; [|now apply Hfresh].
  apply (Permutation_in _ (Permutation_sym Hperm)).
  apply in_or_app. now right.
Qed.

Lemma dashboard_keeps_rolled_back_rows_witness :
  reachable Sqlite.empty
  /\ logTopstepTradesToDatabase [trade_a; trade_b; trade_c]
       (mkState Sqlite.empty [None; None; None; Some Sqlite.SQLITE_FULL])
     = (Rejected (INSERT, Sqlite.SQLITE_FULL), fault_free Sqlite.empty,
        [SqlInserted row_a; EmitNewTrade row_a; SqlRolledBack])
  /\ deliver
       (new_trade_payloads
          [SqlInserted row_a; EmitNewTrade row_a; SqlRolledBack]) []
     = [row_a]
  /\ forall r,
       In r (new_trade_payloads
               [SqlInserted row_a; EmitNewTrade row_a; SqlRolledBack]) ->
       In r (deliver
               (new_trade_payloads
                  [SqlInserted row_a; EmitNewTrade row_a; SqlRolledBack]) [])
       /\ ~ In r (Sqlite.rows (db (fault_free Sqlite.empty))).
Proof.
  split; [exact reachable_empty|]. split; [reflexivity|].
  split; [reflexivity|].
  refine (proj2 (proj2 (dashboard_keeps_rolled_back_rows
                          [trade_a; trade_b; trade_c] Sqlite.empty
                          [None; None; None; Some Sqlite.SQLITE_FULL]
                          INSERT Sqlite.SQLITE_FULL (fault_free Sqlite.empty)
                          [SqlInserted row_a; EmitNewTrade row_a;
                           SqlRolledBack] []
                          reachable_empty eq_refl eq_refl _
                          (Permutation_refl _)))).
  discriminate.
Defined.

(** * Examples of the start-up handlers *)

Lemma account_endpoint_stores_the_answer_witness :
  account_endpoint sample_runtime sample_account_search "50KTC"
    (mkProcess env_without_key None false)
  = (AccountFound (TopstepAccount.mk "7" "50ktc-v2-88" true),
     mkProcess (mkEnv (Some "trader") None (Some "session-1") (Some "7"))
       (Some "50KTC") false)
  /\ TopstepAccount.canTrade (TopstepAccount.mk "7" "50ktc-v2-88" true) = true.
Proof.
  split; [reflexivity|].
  pose proof (account_endpoint_stores_the_answer sample_runtime
                sample_account_search "50KTC"
                (mkProcess env_without_key None false)) as H.
  cbv in H. destruct H as (_ & _ & _ & _ & _ & _ & Hc & _). exact Hc.
Defined.

Lemma startup_sets_flag_only_with_session_witness :
  initializeTopstepSessionAndAccount sample_runtime login_up
    sample_account_search sample_search_parsed "2025-06-01T00:00:00Z"
    "2025-06-02T15:00:00Z" sample_process (fault_free Sqlite.empty)
  = (mkProcess
       (mkEnv (Some "trader") (Some "api-key") (Some "session-2") (Some "7"))
       (Some "50ktc") true,
     fault_free (Sqlite.mkdb [row_a; row_c] None),
     insert_events [row_a; row_c] ++ [SqlCommitted])
  /\ (true = true ->
      false = true
      \/ (truthy (Some "session-2") = true /\ truthy (Some "7") = true)).
Proof.
  split; [reflexivity|].
  pose proof (startup_sets_flag_only_with_session sample_runtime login_up
                sample_account_search sample_search_parsed
                "2025-06-01T00:00:00Z" "2025-06-02T15:00:00Z" sample_process
                (fault_free Sqlite.empty)) as H.
  cbv in H. destruct H as (_ & _ & _ & Hflag & _). exact Hflag.
Defined.
